(** * Context-window management of the Chef Claude voice agent

    A shallow embedding of the context pipeline of [agent.py]: the ring
    buffer of sampled video frames, the frame sampler, image stripping and
    frame injection at turn completion, and the asynchronous compaction of
    the chat history.

    Python values are modelled as follows.
    - [list] is [list]; slices and [list.insert] clamp their (possibly
      negative) integer index as CPython does, see [Py.clamp].
    - [collections.deque(maxlen=n)] is the record [Py.deque].
    - [str] is [string]; truthiness of a string is non-emptiness.
    - module globals and the [items] list of the agent's chat context are
      fields of an explicit state that every operation passes on.
    - a coroutine is cut at its suspension points ([await]) into atomic
      steps; asyncio runs one such step at a time. *)

From Stdlib Require Import String Ascii List ZArith Bool Arith Lia.
From Stdlib Require DecimalString.
Import ListNotations.
Open Scope string_scope.
Open Scope list_scope.
Open Scope nat_scope.

(* ------------------------------------------------------------------ *)
(** ** Python built-ins used by the source *)

Module Py.

(** Index clamping of slices and of [list.insert]: a negative index counts
    from the end, and the result is forced into [0 .. n]. *)
Definition clamp (n : nat) (i : Z) : nat :=
  if (i <? 0)%Z then Z.to_nat (Z.of_nat n + i) else Nat.min (Z.to_nat i) n.

(** [len(l)] *)
Definition len {A} (l : list A) : Z := Z.of_nat (length l).

(** [l[:i]] *)
Definition slice_to {A} (i : Z) (l : list A) : list A :=
  firstn (clamp (length l) i) l.

(** [l[i:]] *)
Definition slice_from {A} (i : Z) (l : list A) : list A :=
  skipn (clamp (length l) i) l.

(** [l.insert(i, x)] *)
Definition insert {A} (i : Z) (x : A) (l : list A) : list A :=
  let k := clamp (length l) i in firstn k l ++ x :: skipn k l.

(** [sep.join(l)] *)
Definition join (sep : string) (l : list string) : string := String.concat sep l.

(** [bool(s)] for a string [s] *)
Definition truthy (s : string) : bool :=
  match s with EmptyString => false | String _ _ => true end.

(** [collections.deque(maxlen=n)]: [elems] is oldest first. *)
Record deque (A : Type) : Type := mkDeque { maxlen : nat; elems : list A }.
Arguments mkDeque {A} _ _.
Arguments maxlen {A} _.
Arguments elems {A} _.

Definition deque_new {A} (n : nat) : deque A := mkDeque n [].

(** [d.append(x)]: the element goes to the right end; when the deque then
    holds more than [maxlen] elements, the leftmost one is dropped. *)
Definition append {A} (x : A) (d : deque A) : deque A :=
  let l := elems d ++ [x] in
  mkDeque (maxlen d) (if maxlen d <? length l then tl l else l).

(** [d.clear()] *)
Definition clear {A} (d : deque A) : deque A := mkDeque (maxlen d) [].

(** [list(d)] *)
Definition to_list {A} (d : deque A) : list A := elems d.

(** [not d] *)
Definition is_empty {A} (d : deque A) : bool :=
  match elems d with [] => true | _ :: _ => false end.

End Py.

(* ------------------------------------------------------------------ *)
(** ** Settings *)

Definition KEEP_IMAGES_IN_LAST_N : Z := 2.
Definition SUMMARIZE_THRESHOLD : Z := 24.
Definition KEEP_RECENT_ITEMS : Z := 8.

(** Capacity of [_frame_buffer = deque(maxlen=3)]. *)
Definition FRAME_BUFFER_MAXLEN : nat := 3.

(* ------------------------------------------------------------------ *)
(** ** Chat items *)

(** One part of a multi-part message content: a [str], an
    [llm.ImageContent] or some other part (audio). *)
Inductive ChatContent : Type :=
| Text (s : string)
| ImageContent (image : string)
| AudioContent (transcript : string).

(** The [content] attribute of a message: a multi-part [list], or a plain
    value (the summary message is built with a plain [str]). *)
Inductive Content : Type :=
| Plain (s : string)
| Parts (l : list ChatContent).

Record ChatMessage : Type := mkMessage { role : string; content : Content }.

(** An item of a chat context.  Items that are not messages (function calls
    and their outputs) have neither [role] nor [content]; this is what the
    [hasattr] and [getattr] guards of the source are for. *)
Inductive ChatItem : Type :=
| Message (m : ChatMessage)
| NonMessage (id : string).

Definition is_image (c : ChatContent) : bool :=
  match c with ImageContent _ => true | _ => false end.

Definition is_str (c : ChatContent) : bool :=
  match c with Text _ => true | _ => false end.

(* ------------------------------------------------------------------ *)
(** ** ContextPruner: [_strip_old_images] *)

(** Body of the loop: [if hasattr(item, "content") and
    isinstance(item.content, list): item.content = [c for c in item.content
    if not isinstance(c, llm.ImageContent)]]. *)
Definition strip_item (item : ChatItem) : ChatItem :=
  match item with
  | Message (mkMessage r (Parts l)) =>
      Message (mkMessage r (Parts (filter (fun c => negb (is_image c)) l)))
  | _ => item
  end.

(** The items of [turn_ctx] after the call.  The loop runs over the slice
    [items[:-KEEP_IMAGES_IN_LAST_N]] and updates each of its items in place;
    the items behind the slice are not visited.  A chat context holds every
    item object once, so a position of the list stands for its item. *)
Definition _strip_old_images (items : list ChatItem) : list ChatItem :=
  if (KEEP_IMAGES_IN_LAST_N <? Py.len items)%Z
  then map strip_item (Py.slice_to (- KEEP_IMAGES_IN_LAST_N) items)
       ++ Py.slice_from (- KEEP_IMAGES_IN_LAST_N) items
  else items.

(* ------------------------------------------------------------------ *)
(** ** ContextPruner: [_inject_video_frames] *)

Section Injection.

(** A sampled frame ([rtc.VideoFrame]) and the two library calls made on
    it: [encode(frame, _encode_options)] and [base64.b64encode(..).decode()]. *)
Variable VideoFrame : Type.
Variable encode : VideoFrame -> list ascii.
Variable b64encode : list ascii -> string.

(** [llm.ImageContent(image=data_url)] for one frame. *)
Definition frame_image (frame : VideoFrame) : ChatContent :=
  ImageContent ("data:image/jpeg;base64," ++ b64encode (encode frame))%string.

(** [list(new_message.content) if isinstance(new_message.content, list)
    else [new_message.content]] *)
Definition content_list (c : Content) : list ChatContent :=
  match c with
  | Parts l => l
  | Plain s => [Text s]
  end.

(** The [for frame in frames] loop: every frame is inserted at index
    [len(content) - 1] of the list built so far. *)
Definition insert_frames (frames : list VideoFrame) (content : list ChatContent)
  : list ChatContent :=
  fold_left
    (fun content frame => Py.insert (Py.len content - 1) (frame_image frame) content)
    frames content.

(** [new_message] after [_inject_video_frames(turn_ctx, new_message)] with
    the global [_frame_buffer]. *)
Definition _inject_video_frames (_frame_buffer : Py.deque VideoFrame)
    (new_message : ChatMessage) : ChatMessage :=
  if Py.is_empty _frame_buffer then new_message
  else
    let frames := Py.to_list _frame_buffer in
    let content := content_list (content new_message) in
    mkMessage (role new_message) (Parts (insert_frames frames content)).

End Injection.

Arguments frame_image {VideoFrame} _ _ _.
Arguments insert_frames {VideoFrame} _ _ _ _.
Arguments _inject_video_frames {VideoFrame} _ _ _ _.

(* ------------------------------------------------------------------ *)
(** ** HistoryCompactor: the summarizer *)

Definition newline : string := String (ascii_of_nat 10) EmptyString.

(** [[c for c in content if isinstance(c, str)]] *)
Fixpoint text_parts (l : list ChatContent) : list string :=
  match l with
  | [] => []
  | Text s :: l' => s :: text_parts l'
  | _ :: l' => text_parts l'
  end.

(** [getattr(item, "role", "unknown")] *)
Definition item_role (item : ChatItem) : string :=
  match item with
  | Message m => role m
  | NonMessage _ => "unknown"
  end.

(** [getattr(item, "content", "")], joined with blanks when it is a list. *)
Definition item_text (item : ChatItem) : string :=
  match item with
  | Message m =>
      match content m with
      | Parts l => Py.join " " (text_parts l)
      | Plain s => s
      end
  | NonMessage _ => ""
  end.

(** The [lines] of [_summarize_older_turns]: one ["role: content"] line per
    item whose text is not empty. *)
Fixpoint conversation_lines (items_to_summarize : list ChatItem) : list string :=
  match items_to_summarize with
  | [] => []
  | item :: rest =>
      if Py.truthy (item_text item)
      then (item_role item ++ ": " ++ item_text item)%string :: conversation_lines rest
      else conversation_lines rest
  end.

Definition SUMMARY_INSTRUCTIONS : string :=
  ("Summarize this cooking conversation into a compact paragraph. "
   ++ "Preserve key facts: what's being cooked, current step, decisions made, "
   ++ "user preferences mentioned, any issues encountered. Be concise."
   ++ newline ++ newline)%string.

(** The user message sent to the summarization model, or [None] when
    [lines] is empty and the function returns before any call. *)
Definition summary_request (items_to_summarize : list ChatItem) : option string :=
  match conversation_lines items_to_summarize with
  | [] => None
  | lines => Some (SUMMARY_INSTRUCTIONS ++ Py.join newline lines)%string
  end.

(** What awaiting the model call gives back: the text of the first content
    block of the response, or an exception. *)
Inductive Outcome : Type :=
| Returned (text : string)
| Raised.

(** [_summarize_older_turns], over the external call
    [client.messages.create(..).content[0].text]. *)
Definition _summarize_older_turns (create : string -> Outcome)
    (items_to_summarize : list ChatItem) : Outcome :=
  match summary_request items_to_summarize with
  | None => Returned ""
  | Some request => create request
  end.

(** [llm.ChatMessage(role=.., content=..)].  The class validates its fields
    when an instance is built, and [content] has to be a list: given any
    other value the constructor raises a validation error, which is [None]
    here. *)
Definition new_ChatMessage (role : string) (content : Content) : option ChatItem :=
  match content with
  | Parts l => Some (Message (mkMessage role (Parts l)))
  | Plain _ => None
  end.

(** [llm.ChatMessage(role="assistant", content=f"[Conversation so far: {summary}]")]:
    the content handed to the constructor is a [str]. *)
Definition summary_msg (summary : string) : option ChatItem :=
  new_ChatMessage "assistant" (Plain ("[Conversation so far: " ++ summary ++ "]")%string).

(* ------------------------------------------------------------------ *)
(** ** HistoryCompactor: state and atomic steps *)

(** A task made by [asyncio.create_task(_do_summarize())] that has not
    finished: not started yet, or suspended at [await
    _summarize_older_turns(older_items)] with its local variables. *)
Inductive Task : Type :=
| Pending
| Awaiting (older_items recent_items : list ChatItem).

(** What the compactor does besides changing the history: writes of the
    global flag, task creation and the two log calls. *)
Inductive Event : Type :=
| FlagSet
| FlagCleared
| TaskCreated
| LogCompacted (n_older n_recent : nat)
| LogError.

(** The state the compactor works on.  [items] is the list of the context
    that [_maybe_summarize] was given; the task reads it again when it runs.
    Where that context is a copy of the agent's history, as the one the
    hooks pass, what the foreground appends to the history later does not
    reach it: no [append_item] step happens to it. *)
Record World : Type := mkWorld {
  items : list ChatItem;               (* agent_chat_ctx.items *)
  _summarization_in_progress : bool;   (* the global flag *)
  _summarization_lock : bool;          (* true while the asyncio.Lock is held *)
  tasks : list Task;                   (* unfinished compaction tasks, oldest first *)
  trace : list Event
}.

(** The foreground adds an item to the history. *)
Definition append_item (item : ChatItem) (w : World) : World :=
  mkWorld (items w ++ [item]) (_summarization_in_progress w)
          (_summarization_lock w) (tasks w) (trace w).

Definition append_items (new_items : list ChatItem) (w : World) : World :=
  fold_left (fun w item => append_item item w) new_items w.

(** [_maybe_summarize]: it has no suspension point, so it is one step. *)
Definition _maybe_summarize (w : World) : World :=
  if (Py.len (items w) <=? SUMMARIZE_THRESHOLD)%Z || _summarization_in_progress w
  then w
  else mkWorld (items w) true (_summarization_lock w)
               (tasks w ++ [Pending]) (trace w ++ [FlagSet; TaskCreated]).

(** Leaving [_do_summarize]: the lock is released and the [finally] clause
    clears the flag; [rest] are the other unfinished tasks. *)
Definition task_exit (w : World) (rest : list Task) : World :=
  mkWorld (items w) false false rest (trace w ++ [FlagCleared]).

(** The oldest task that has not started, taken out of the list. *)
Fixpoint take_pending (ts : list Task) : option (list Task) :=
  match ts with
  | [] => None
  | Pending :: rest => Some rest
  | t :: rest => option_map (cons t) (take_pending rest)
  end.

(** The suspended task, with its locals, taken out of the list. *)
Fixpoint take_awaiting (ts : list Task)
  : option (list ChatItem * list ChatItem * list Task) :=
  match ts with
  | [] => None
  | Awaiting older recent :: rest => Some (older, recent, rest)
  | t :: rest =>
      match take_awaiting rest with
      | Some (older, recent, rest') => Some (older, recent, t :: rest')
      | None => None
      end
  end.

(** First step of [_do_summarize]: from the start of the coroutine up to
    the model call (or to the end, when it returns before the call).  While
    the lock is held the task waits. *)
Definition task_begin (w : World) : World :=
  if _summarization_lock w then w
  else
    match take_pending (tasks w) with
    | None => w
    | Some rest =>
        let items := items w in
        if (Py.len items <=? SUMMARIZE_THRESHOLD)%Z then task_exit w rest
        else
          let split_point := (Py.len items - KEEP_RECENT_ITEMS)%Z in
          let older_items := Py.slice_to split_point items in
          let recent_items := Py.slice_from split_point items in
          match summary_request older_items with
          | None =>
              (* the summary is the empty string: [if summary:] fails *)
              task_exit w rest
          | Some _ =>
              mkWorld items (_summarization_in_progress w) true
                      (Awaiting older_items recent_items :: rest) (trace w)
          end
    end.

(** [items.clear(); items.append(summary_msg); items.extend(recent_items)] *)
Definition replace_items (summary_msg : ChatItem) (recent_items : list ChatItem)
    (w : World) : World :=
  mkWorld ([] ++ [summary_msg] ++ recent_items)
          (_summarization_in_progress w) (_summarization_lock w) (tasks w) (trace w).

Definition log (e : Event) (w : World) : World :=
  mkWorld (items w) (_summarization_in_progress w) (_summarization_lock w)
          (tasks w) (trace w ++ [e]).

(** Second step of [_do_summarize]: the model call comes back with
    [outcome] and the coroutine runs to its end.  The summary message is
    built inside the [try], before [items.clear()]: when its constructor
    raises, [except Exception] logs the error and the list is not touched. *)
Definition task_resume (outcome : Outcome) (w : World) : World :=
  match take_awaiting (tasks w) with
  | None => w
  | Some (older_items, recent_items, rest) =>
      match outcome with
      | Returned summary =>
          if Py.truthy summary
          then
            match summary_msg summary with
            | Some msg =>
                task_exit
                  (log (LogCompacted (length older_items) (length recent_items))
                       (replace_items msg recent_items w))
                  rest
            | None => task_exit (log LogError w) rest
            end
          else task_exit w rest
      | Raised => task_exit (log LogError w) rest
      end
  end.

(** The compaction task run from its start to its end; [during] are the
    items that the foreground appends while the task awaits the model. *)
Definition run_compaction (create : string -> Outcome) (during : list ChatItem)
    (w : World) : World :=
  let w1 := task_begin w in
  match take_awaiting (tasks w1) with
  | Some (older_items, _, _) =>
      task_resume (_summarize_older_turns create older_items) (append_items during w1)
  | None => w1
  end.

(** [_do_summarize] with nothing else running in between. *)
Definition _do_summarize (create : string -> Outcome) (w : World) : World :=
  run_compaction create [] w.

(** Any interleaving of the foreground and of the compaction tasks. *)
Inductive step : World -> World -> Prop :=
| step_append w item : step w (append_item item w)
| step_trigger w : step w (_maybe_summarize w)
| step_begin w : step w (task_begin w)
| step_resume w outcome : step w (task_resume outcome w).

Inductive steps : World -> World -> Prop :=
| steps_refl w : steps w w
| steps_next w1 w2 w3 : step w1 w2 -> steps w2 w3 -> steps w1 w3.

(** No compaction scheduled or running. *)
Definition idle (w : World) : Prop :=
  _summarization_in_progress w = false /\ _summarization_lock w = false /\ tasks w = [].

Definition count_event (p : Event -> bool) (w : World) : nat :=
  length (filter p (trace w)).

Definition is_FlagSet (e : Event) : bool :=
  match e with FlagSet => true | _ => false end.
Definition is_FlagCleared (e : Event) : bool :=
  match e with FlagCleared => true | _ => false end.
Definition is_TaskCreated (e : Event) : bool :=
  match e with TaskCreated => true | _ => false end.
Definition is_LogCompacted (e : Event) : bool :=
  match e with LogCompacted _ _ => true | _ => false end.

(* ------------------------------------------------------------------ *)
(** ** FrameSampler: [_capture_video_frames] *)

Inductive TrackSource : Type :=
| SOURCE_UNKNOWN
| SOURCE_CAMERA
| SOURCE_MICROPHONE
| SOURCE_SCREENSHARE
| SOURCE_SCREENSHARE_AUDIO.

Definition is_camera (s : TrackSource) : bool :=
  match s with SOURCE_CAMERA => true | _ => false end.

(** A track is named by its sid. *)
Definition Track : Type := string.

Record TrackPublication : Type := mkPublication {
  track : option Track;
  source : TrackSource
}.

Record RemoteParticipant : Type := mkParticipant {
  identity : string;
  track_publications : list TrackPublication   (* .values(), in dict order *)
}.

(** [room.remote_participants.values()] *)
Definition Room : Type := list RemoteParticipant.

(** Inner loop of the discovery: the first publication with a track and the
    camera as its source. *)
Fixpoint camera_publication (pubs : list TrackPublication) : option Track :=
  match pubs with
  | [] => None
  | pub :: rest =>
      match track pub with
      | Some t => if is_camera (source pub) then Some t else camera_publication rest
      | None => camera_publication rest
      end
  end.

(** Outer loop: the first participant that has one. *)
Fixpoint find_video_track (room : Room) : option Track :=
  match room with
  | [] => None
  | p :: rest =>
      match camera_publication (track_publications p) with
      | Some t => Some t
      | None => find_video_track rest
      end
  end.

Section Sampler.

Variable VideoFrame : Type.

(** Where the sampler coroutine is: at the top of its outer loop, or in the
    sampling loop beside a reader task on the stream of a track. *)
Inductive Phase : Type :=
| Discovering
| Streaming (t : Track).

Record Sampler : Type := mkSampler {
  _frame_buffer : Py.deque VideoFrame;
  _latest_frame : option VideoFrame;     (* _latest_frame["frame"] *)
  phase : Phase
}.

(** What makes the sampler or its reader task run. *)
Inductive Input : Type :=
| Poll (room : Room)          (* the outer loop starts an iteration *)
| FrameEvent (frame : VideoFrame)   (* the reader gets an event of the stream *)
| Tick                        (* an iteration of the sampling loop *)
| StreamOver.                 (* the reader is done or the loop raised *)

(** What the coroutine does to the outside. *)
Inductive Effect : Type :=
| Sleep (milliseconds : nat)
| OpenStream (t : Track)
| CloseStream.

Definition sampler_step (i : Input) (s : Sampler) : Sampler * list Effect :=
  match phase s, i with
  | Discovering, Poll room =>
      match find_video_track room with
      | None =>
          (mkSampler (Py.clear (_frame_buffer s)) None Discovering, [Sleep 1000])
      | Some t =>
          (mkSampler (_frame_buffer s) (_latest_frame s) (Streaming t), [OpenStream t])
      end
  | Streaming t, FrameEvent frame =>
      (mkSampler (_frame_buffer s) (Some frame) (Streaming t), [])
  | Streaming t, Tick =>
      match _latest_frame s with
      | Some frame =>
          (mkSampler (Py.append frame (_frame_buffer s)) (Some frame) (Streaming t),
           [Sleep 500])
      | None => (s, [Sleep 500])
      end
  | Streaming t, StreamOver =>
      (* the [finally] clause *)
      (mkSampler (Py.clear (_frame_buffer s)) None Discovering, [CloseStream; Sleep 1000])
  | _, _ => (s, [])
  end.

(** The state after a list of inputs. *)
Definition sampler_run (inputs : list Input) (s : Sampler) : Sampler :=
  fold_left (fun s i => fst (sampler_step i s)) inputs s.

(** [snapshot()]: what the injection reads. *)
Definition snapshot (s : Sampler) : list VideoFrame := Py.to_list (_frame_buffer s).

Definition is_poll (i : Input) : bool :=
  match i with Poll _ => true | _ => false end.

End Sampler.

Arguments mkSampler {VideoFrame} _ _ _.
Arguments _frame_buffer {VideoFrame} _.
Arguments _latest_frame {VideoFrame} _.
Arguments phase {VideoFrame} _.
Arguments Poll {VideoFrame} _.
Arguments FrameEvent {VideoFrame} _.
Arguments Tick {VideoFrame}.
Arguments StreamOver {VideoFrame}.
Arguments sampler_step {VideoFrame} _ _.
Arguments sampler_run {VideoFrame} _ _.
Arguments snapshot {VideoFrame} _.
Arguments is_poll {VideoFrame} _.

(** No participant of the room publishes a camera track. *)
Definition no_camera (room : Room) : Prop :=
  forall p pub t,
    In p room -> In pub (track_publications p) ->
    track pub = Some t -> source pub <> SOURCE_CAMERA.

(* ------------------------------------------------------------------ *)
(** ** ConversationModeController: the turn-completion hook *)

Inductive Agent : Type :=
| OnboardingAgent
| ChefAgent
| RecipeAgent.

(** The functions of the context pipeline a hook can call. *)
Inductive Call : Type :=
| Call_strip_old_images
| Call_inject_video_frames
| Call_maybe_summarize.

Section Hook.

Variable VideoFrame : Type.
Variable encode : VideoFrame -> list ascii.
Variable b64encode : list ascii -> string.

(** What a hook can read and change: its two arguments, the context that
    [self.chat_ctx] gives (a copy of the agent's history, taken when the
    hook reads it) with the compaction globals, and the frame buffer.
    [calls] lists the pipeline functions called so far. *)
Record Turn : Type := mkTurn {
  turn_ctx : list ChatItem;
  new_message : ChatMessage;
  chat_ctx : World;
  frame_buffer : Py.deque VideoFrame;
  calls : list Call
}.

Definition call_strip_old_images (t : Turn) : Turn :=
  mkTurn (_strip_old_images (turn_ctx t)) (new_message t) (chat_ctx t)
         (frame_buffer t) (calls t ++ [Call_strip_old_images]).

Definition call_inject_video_frames (t : Turn) : Turn :=
  mkTurn (turn_ctx t)
         (_inject_video_frames encode b64encode (frame_buffer t) (new_message t))
         (chat_ctx t) (frame_buffer t) (calls t ++ [Call_inject_video_frames]).

Definition call_maybe_summarize (t : Turn) : Turn :=
  mkTurn (turn_ctx t) (new_message t) (_maybe_summarize (chat_ctx t))
         (frame_buffer t) (calls t ++ [Call_maybe_summarize]).

(** The body shared by [ChefAgent.on_user_turn_completed] and
    [RecipeAgent.on_user_turn_completed]. *)
Definition pipeline_hook (t : Turn) : Turn :=
  call_maybe_summarize (call_inject_video_frames (call_strip_old_images t)).

(** [Agent.on_user_turn_completed] of the framework, which a class that
    does not define the method inherits: it does nothing. *)
Definition inherited_hook (t : Turn) : Turn := t.

Definition on_user_turn_completed (agent : Agent) (t : Turn) : Turn :=
  match agent with
  | OnboardingAgent => inherited_hook t
  | ChefAgent => pipeline_hook t
  | RecipeAgent => pipeline_hook t
  end.

End Hook.

Arguments mkTurn {VideoFrame} _ _ _ _ _.
Arguments turn_ctx {VideoFrame} _.
Arguments new_message {VideoFrame} _.
Arguments chat_ctx {VideoFrame} _.
Arguments frame_buffer {VideoFrame} _.
Arguments calls {VideoFrame} _.
Arguments pipeline_hook {VideoFrame} _ _ _.
Arguments on_user_turn_completed {VideoFrame} _ _ _ _.

(* ------------------------------------------------------------------ *)
(** ** Vocabulary of the properties *)

(** The global [_frame_buffer] after the frames of a sequence were appended
    to it one by one, starting from the empty buffer. *)
Definition frames_appended {A} (frames : list A) : Py.deque A :=
  fold_left (fun d frame => Py.append frame d) frames (Py.deque_new FRAME_BUFFER_MAXLEN).

(** The parts of a multi-part message; other items have none. *)
Definition item_parts (item : ChatItem) : list ChatContent :=
  match item with
  | Message (mkMessage _ (Parts l)) => l
  | _ => []
  end.

Definition is_multipart (item : ChatItem) : bool :=
  match item with
  | Message (mkMessage _ (Parts _)) => true
  | _ => false
  end.

Definition image_parts (item : ChatItem) : list ChatContent :=
  filter is_image (item_parts item).

Definition other_parts (item : ChatItem) : list ChatContent :=
  filter (fun c => negb (is_image c)) (item_parts item).

(** An item from which the summarizer extracts nothing: its content is
    empty or has no string part. *)
Definition no_text (item : ChatItem) : bool :=
  match item with
  | Message (mkMessage _ (Plain s)) => negb (Py.truthy s)
  | Message (mkMessage _ (Parts l)) => forallb (fun c => negb (is_str c)) l
  | NonMessage _ => true
  end.

(** The flag is set exactly while one task exists, and the lock is held
    exactly while that task awaits the model. *)
Definition coherent (w : World) : Prop :=
  match tasks w with
  | [] => _summarization_in_progress w = false /\ _summarization_lock w = false
  | [Pending] => _summarization_in_progress w = true /\ _summarization_lock w = false
  | [Awaiting _ _] => _summarization_in_progress w = true /\ _summarization_lock w = true
  | _ => False
  end.

(** Steps taken while a compaction is in flight. *)
Inductive in_flight_steps : World -> World -> Prop :=
| in_flight_refl w : in_flight_steps w w
| in_flight_next w1 w2 w3 :
    _summarization_in_progress w1 = true ->
    step w1 w2 -> in_flight_steps w2 w3 -> in_flight_steps w1 w3.

(** An input that cannot bring frames back: a poll that sees no camera
    track, or anything that is not a poll. *)
Definition quiet {VideoFrame} (i : Input VideoFrame) : Prop :=
  match i with
  | Poll room => no_camera room
  | _ => True
  end.

(* ------------------------------------------------------------------ *)
(** ** Sample inputs *)

(** Frames are numbers here, and the two library calls are stand-ins that
    keep the frames apart. *)
Definition sample_encode (frame : nat) : list ascii := [ascii_of_nat frame].
Definition sample_b64encode (bytes : list ascii) : string := string_of_list_ascii bytes.

(** A turn with a text part and an image part; the text names the turn. *)
Definition sample_item (n : nat) : ChatItem :=
  Message (mkMessage (if Nat.even n then "user" else "assistant")
             (Parts [ImageContent "data:image/jpeg;base64,AAAA";
                     Text (String (ascii_of_nat (65 + n)) EmptyString)])).

(** A turn that is only an image. *)
Definition image_item (n : nat) : ChatItem :=
  Message (mkMessage "user" (Parts [ImageContent (String (ascii_of_nat (65 + n)) EmptyString)])).

(** 25 items and nothing in flight. *)
Definition sample_world : World :=
  mkWorld (map sample_item (seq 0 25)) false false [] [].

(** 25 items, the older ones without any text, and a task scheduled. *)
Definition image_world : World :=
  mkWorld (map image_item (seq 0 17) ++ map sample_item (seq 17 8)) true false [Pending]
          [FlagSet; TaskCreated].

Definition sample_create (request : string) : Outcome :=
  Returned "Making minestrone for four; the onions are sweating.".

Definition failing_create (request : string) : Outcome := Raised.

(** A room whose only participant publishes a microphone track and has a
    camera publication without a track yet. *)
Definition sample_room : Room :=
  [mkParticipant "guest"
     [mkPublication (Some "TR_mic") SOURCE_MICROPHONE;
      mkPublication None SOURCE_CAMERA]].

(** A completed user turn: three earlier items with images, two frames in
    the buffer, and an agent history of 25 items. *)
Definition sample_turn : Turn nat :=
  mkTurn (map sample_item (seq 0 3))
         (mkMessage "user" (Parts [Text "does this look done?"]))
         sample_world
         (frames_appended [1; 2])
         [].

(* ------------------------------------------------------------------ *)
(** ** The sampler from its start *)

(** The state in which [_capture_video_frames] starts: the module-level
    [_frame_buffer = deque(maxlen=3)] is empty, [_latest_frame] holds
    [None], and the coroutine is at the top of its loop. *)
Definition sampler_start {VideoFrame} : Sampler VideoFrame :=
  mkSampler (Py.deque_new FRAME_BUFFER_MAXLEN) None Discovering.

(** What every state of the sampler satisfies: the buffer respects its
    capacity, and at the top of the discovery loop nothing is held. *)
Definition sampler_ok {VideoFrame} (s : Sampler VideoFrame) : Prop :=
  Py.maxlen (_frame_buffer s) = FRAME_BUFFER_MAXLEN /\
  length (Py.elems (_frame_buffer s)) <= FRAME_BUFFER_MAXLEN /\
  (phase s = Discovering -> Py.elems (_frame_buffer s) = [] /\ _latest_frame s = None).

(* ------------------------------------------------------------------ *)
(** ** Python dictionaries with string keys *)

Module PyDict.

(** A [dict] as the list of its entries in insertion order; a key occurs
    at most once in a dictionary built with [set] from a literal. *)
Definition dict (V : Type) : Type := list (string * V).

(** [d.get(k)] *)
Fixpoint get {V} (k : string) (d : dict V) : option V :=
  match d with
  | [] => None
  | (k', v) :: d' => if String.eqb k k' then Some v else get k d'
  end.

(** [d[k] = v]: the value of an existing key is replaced in place, a new
    key goes to the end. *)
Fixpoint set {V} (k : string) (v : V) (d : dict V) : dict V :=
  match d with
  | [] => [(k, v)]
  | (k', v') :: d' =>
      if String.eqb k k' then (k', v) :: d' else (k', v') :: set k v d'
  end.

(** [d.update(other)] *)
Definition update {V} (d other : dict V) : dict V :=
  fold_left (fun d kv => set (fst kv) (snd kv) d) other d.

End PyDict.

(* ------------------------------------------------------------------ *)
(** ** User profiles: [_format_profile] and the tools that change a profile *)

Module Profile.

(** What a function returns, or the [KeyError] it raises. *)
Inductive Result (A : Type) : Type :=
| Ok (a : A)
| KeyError (key : string).
Arguments Ok {A} _.
Arguments KeyError {A} _.

Definition bind {A B} (r : Result A) (k : A -> Result B) : Result B :=
  match r with
  | Ok a => k a
  | KeyError key => KeyError key
  end.

Notation "x <- r ;; k" := (bind r (fun x => k))
  (at level 61, r at next level, right associativity).

(** [d[k]] *)
Definition getitem {V} (k : string) (d : PyDict.dict V) : Result V :=
  match PyDict.get k d with
  | Some v => Ok v
  | None => KeyError k
  end.

(** An entry of ["dish_history"], as [finish_recipe] writes it. *)
Record Dish : Type := mkDish { title : string; date : string }.

(** A profile dictionary as this program writes it: the answers of the
    onboarding are strings under their keys, and ["dish_history"], when the
    key is there, is a list of dishes. *)
Record t : Type := mkProfile {
  answers : PyDict.dict string;
  dish_history : option (list Dish)
}.

(** [bool(profile)]: a dictionary is true when it has a key. *)
Definition truthy (profile : t) : bool :=
  match answers profile, dish_history profile with
  | [], None => false
  | _, _ => true
  end.

(** [profile.get("dish_history", [])] *)
Definition history (profile : t) : list Dish :=
  match dish_history profile with
  | Some h => h
  | None => []
  end.

(** [f"{d['title']} ({d['date']})"] *)
Definition format_dish (d : Dish) : string :=
  (title d ++ " (" ++ date d ++ ")")%string.

Definition _format_profile (profile : t) : Result string :=
  first_name <- getitem "first_name" (answers profile) ;;
  full_name <- getitem "full_name" (answers profile) ;;
  culinary_background <- getitem "culinary_background" (answers profile) ;;
  comfort_level <- getitem "comfort_level" (answers profile) ;;
  goals <- getitem "goals" (answers profile) ;;
  let lines :=
    [("Name: " ++ first_name ++ " (" ++ full_name ++ ")")%string;
     ("Culinary background: " ++ culinary_background)%string;
     ("Comfort level: " ++ comfort_level)%string;
     ("Goals: " ++ goals)%string] in
  let history := history profile in
  let lines :=
    match history with
    | [] => lines
    | _ :: _ =>
        let recent := Py.slice_from (-5) history in
        let dishes := Py.join ", " (map format_dish recent) in
        lines ++ [("Recent dishes cooked: " ++ dishes)%string]
    end in
  Ok (Py.join newline lines).

(** [self._user_profile.update(profile)] *)
Definition update (profile other : t) : t :=
  mkProfile (PyDict.update (answers profile) (answers other))
            (match dish_history other with
             | Some h => Some h
             | None => dish_history profile
             end).

(** The dictionary literal of [save_profile_and_start_cooking]. *)
Definition onboarding_profile
    (full_name first_name culinary_background comfort_level goals : string) : t :=
  mkProfile [("full_name", full_name); ("first_name", first_name);
             ("culinary_background", culinary_background);
             ("comfort_level", comfort_level); ("goals", goals)]
            None.

(** What a tool that ends with a switch to the Chef state leaves behind:
    the profile given to [save_profile] (if it was called), the agent's
    profile dictionary, and the profile text of the new [ChefAgent], whose
    constructor calls [_format_profile]. *)
Record Handoff : Type := mkHandoff {
  saved : option t;
  user_profile : t;
  chef_profile_text : Result string
}.

(** [OnboardingAgent.save_profile_and_start_cooking] *)
Definition save_profile_and_start_cooking (_user_profile : t)
    (full_name first_name culinary_background comfort_level goals : string) : Handoff :=
  let profile :=
    onboarding_profile full_name first_name culinary_background comfort_level goals in
  let _user_profile := update _user_profile profile in
  mkHandoff (Some profile) _user_profile (_format_profile _user_profile).

(** [RecipeAgent.finish_recipe]: [loaded] is what [load_profile] returns
    and [today] is [date.today().isoformat()]. *)
Definition finish_recipe (loaded : option t) (_user_profile : t)
    (_recipe_title today : string) : Handoff :=
  if Py.truthy _recipe_title then
    let profile :=
      match loaded with
      | Some p => if truthy p then p else _user_profile
      | None => _user_profile
      end in
    let history := history profile ++ [mkDish _recipe_title today] in
    let profile := mkProfile (answers profile) (Some history) in
    let _user_profile := update _user_profile profile in
    mkHandoff (Some profile) _user_profile (_format_profile _user_profile)
  else
    mkHandoff None _user_profile (_format_profile _user_profile).

(** The keys [_format_profile] reads, in the order it reads them. *)
Definition REQUIRED_KEYS : list string :=
  ["first_name"; "full_name"; "culinary_background"; "comfort_level"; "goals"].

Definition missing (profile : t) (key : string) : bool :=
  match PyDict.get key (answers profile) with
  | Some _ => false
  | None => true
  end.

End Profile.

(* ------------------------------------------------------------------ *)
(** ** Grocery list tools *)

Module Grocery.

(** A value that [json.loads] returns.  A number keeps its literal; an
    object is the list of its members, each key once. *)
#[local] Unset Elimination Schemes.
Inductive JSON : Type :=
| JNull
| JBool (b : bool)
| JNumber (literal : string)
| JString (s : string)
| JList (l : list JSON)
| JDict (members : list (string * JSON)).
#[local] Set Elimination Schemes.

(** [len(s)] for a string held as its UTF-8 bytes: the number of
    characters, that is of bytes that do not continue a character. *)
Fixpoint str_len (s : string) : nat :=
  match s with
  | EmptyString => 0
  | String c s' =>
      let b := nat_of_ascii c in
      if (128 <=? b) && (b <? 192) then str_len s' else S (str_len s')
  end.

(** [len(v)], or [None] where Python raises [TypeError]. *)
Definition py_len (v : JSON) : option nat :=
  match v with
  | JString s => Some (str_len s)
  | JList l => Some (length l)
  | JDict members => Some (length members)
  | JNull | JBool _ | JNumber _ => None
  end.

(** [str(n)] for a count. *)
Definition str_of_nat (n : nat) : string :=
  DecimalString.NilEmpty.string_of_uint (Nat.to_uint n).

(** A group of the list, as [save_to_grocery_list] writes it:
    [{"recipe": .., "ingredients": .., "checked": []}]. *)
Record Entry : Type := mkEntry {
  recipe : string;
  ingredients : JSON;
  checked : list JSON
}.

(** The calls a tool makes to the storage layer and to [_publish_data]
    (always on the topic ["grocery_list"]; [kind] is the ["type"] field). *)
Inductive Effect : Type :=
| Load (user_id : string)
| Save (user_id : string) (items : list Entry)
| Publish (kind : string) (items : list Entry).

(** How a tool call ends: with the text it returns, or with the
    [TypeError] of [len] on a value that has no length. *)
Inductive Reply : Type :=
| Said (text : string)
| TypeError.

Record Run : Type := mkRun { effects : list Effect; reply : Reply }.

(** The two agents word one reply differently. *)
Inductive Owner : Type := OfChef | OfRecipe.

(** [sum(len(g["ingredients"]) for g in items)] *)
Fixpoint total_ingredients (items : list Entry) : option nat :=
  match items with
  | [] => Some 0
  | g :: rest =>
      match py_len (ingredients g) with
      | None => None
      | Some n =>
          match total_ingredients rest with
          | None => None
          | Some m => Some (n + m)
          end
      end
  end.

Section Tools.

(** [json.loads], [None] when it raises; [stored] is what
    [load_grocery_list(self._user_id)] returns. *)
Variable loads : string -> option JSON.

(** [ChefAgent.save_to_grocery_list] and [RecipeAgent.save_to_grocery_list] *)
Definition save_to_grocery_list (owner : Owner) (stored : list Entry)
    (_user_id recipe_title ingredients : string) : Run :=
  match loads ingredients with
  | None =>
      mkRun [] (Said "Failed to parse ingredients. Pass a valid JSON array of strings.")
  | Some parsed =>
      let items := stored ++ [mkEntry recipe_title parsed []] in
      mkRun [Load _user_id; Save _user_id items; Publish "grocery_list_update" items]
            (match py_len parsed with
             | Some n =>
                 Said ("Saved " ++ str_of_nat n ++ " ingredients from " ++ recipe_title
                       ++ match owner with
                          | OfChef => " to your grocery list."
                          | OfRecipe => " to the grocery list."
                          end)%string
             | None => TypeError
             end)
  end.

End Tools.

(** [show_grocery_list] of both agents.  The dash of the first reply is
    U+2014, written here as its three UTF-8 bytes. *)
Definition show_grocery_list (stored : list Entry) (_user_id : string) : Run :=
  let items := stored in
  mkRun [Load _user_id; Publish "grocery_list_show" items]
        (match items with
         | [] =>
             Said ("The grocery list is empty "
                   ++ String (ascii_of_nat 226) (String (ascii_of_nat 128)
                        (String (ascii_of_nat 148) EmptyString))
                   ++ " nothing saved yet.")%string
         | _ :: _ =>
             match total_ingredients items with
             | Some total =>
                 Said ("Grocery list is now on screen with " ++ str_of_nat total
                       ++ " items across " ++ str_of_nat (length items)
                       ++ " recipe(s).")%string
             | None => TypeError
             end
         end).

(** [ChefAgent.clear_grocery_list] *)
Definition clear_grocery_list (stored : list Entry)
    (_user_id recipe_title : string) : Run :=
  if Py.truthy recipe_title then
    let items := filter (fun i => negb (String.eqb (recipe i) recipe_title)) stored in
    mkRun [Load _user_id; Save _user_id items; Publish "grocery_list_update" items]
          (Said ("Removed " ++ recipe_title ++ " from grocery list.")%string)
  else
    let items := [] in
    mkRun [Save _user_id items; Publish "grocery_list_update" items]
          (Said "Grocery list cleared.").

(** The list a run hands to [save_grocery_list], if it does. *)
Fixpoint saved_items (es : list Effect) : option (list Entry) :=
  match es with
  | [] => None
  | Save _ items :: _ => Some items
  | _ :: rest => saved_items rest
  end.

End Grocery.

(* ------------------------------------------------------------------ *)
(** ** Recipe links: [_extract_link] *)

Module Link.

(** The six characters that [url.rstrip] is given: full stop, comma,
    semicolon, closing parenthesis, double quote and apostrophe. *)
Definition TRAILING : list ascii :=
  ["."; ","; ";"; ")"; ascii_of_nat 34; "'"]%char.

Definition among (chars : list ascii) (c : ascii) : bool :=
  existsb (Ascii.eqb c) chars.

(** [s.rstrip(chars)] *)
Fixpoint rstrip (chars : list ascii) (s : string) : string :=
  match s with
  | EmptyString => EmptyString
  | String c s' =>
      match rstrip chars s' with
      | EmptyString => if among chars c then EmptyString else String c EmptyString
      | rest => String c rest
      end
  end.

(** [s] without the prefix [p], when it starts with it. *)
Fixpoint drop_prefix (p s : string) : option string :=
  match p, s with
  | EmptyString, _ => Some s
  | String a p', String b s' => if Ascii.eqb a b then drop_prefix p' s' else None
  | String _ _, EmptyString => None
  end.

(** The longest prefix without a slash: what [[^/]*] takes. *)
Fixpoint host_chars (s : string) : string :=
  match s with
  | EmptyString => EmptyString
  | String c s' => if Ascii.eqb c "/" then EmptyString else String c (host_chars s')
  end.

Definition nonempty (s : string) : option string :=
  match s with
  | EmptyString => None
  | String _ _ => Some s
  end.

(** The group of [https?://(?:www\.)?([^/]+)] matched at the start of [s].
    The optional [www.] is taken when a host follows it, and given back
    when none does. *)
Definition domain_at (s : string) : option string :=
  match
    match drop_prefix "https://" s with
    | Some rest => Some rest
    | None => drop_prefix "http://" s
    end
  with
  | None => None
  | Some rest =>
      match drop_prefix "www." rest with
      | Some rest' =>
          match nonempty (host_chars rest') with
          | Some g => Some g
          | None => nonempty (host_chars rest)
          end
      | None => nonempty (host_chars rest)
      end
  end.

(** [re.search]: the match at the leftmost position that has one. *)
Fixpoint search_domain (s : string) : option string :=
  match domain_at s with
  | Some g => Some g
  | None =>
      match s with
      | EmptyString => None
      | String _ s' => search_domain s'
      end
  end.

Record LinkInfo : Type := mkLink { url : string; title : string; source : string }.

Section ExtractLink.

(** [str.strip()], which removes the white space at both ends. *)
Variable strip : string -> string.

Definition _extract_link (url title : string) : LinkInfo :=
  let url := rstrip TRAILING url in
  let source :=
    match search_domain url with
    | Some domain => domain
    | None => "web"
    end in
  mkLink url (strip title) source.

End ExtractLink.

(** No slash among the characters of a string. *)
Fixpoint slash_free (s : string) : bool :=
  match s with
  | EmptyString => true
  | String c s' => negb (Ascii.eqb c "/") && slash_free s'
  end.

(** The last character of a string. *)
Fixpoint last_char (s : string) : option ascii :=
  match s with
  | EmptyString => None
  | String c EmptyString => Some c
  | String _ s' => last_char s'
  end.

(** All characters of a string are among [chars]. *)
Fixpoint all_among (chars : list ascii) (s : string) : bool :=
  match s with
  | EmptyString => true
  | String c s' => among chars c && all_among chars s'
  end.

(** A host name as the link shows it: without one leading [www.], unless
    nothing would be left. *)
Definition without_www (host : string) : string :=
  match drop_prefix "www." host with
  | Some (String c rest) => String c rest
  | _ => host
  end.

End Link.

(* ------------------------------------------------------------------ *)
(** ** The agents of a session and their tools *)

Module Session.

(** The methods decorated with [function_tool]. *)
Inductive Tool : Type :=
| save_profile_and_start_cooking
| request_camera
| set_timer
| suggest_dishes
| show_grocery_list
| save_to_grocery_list
| clear_grocery_list
| start_recipe
| update_recipe
| update_step
| finish_recipe.

(** The tools each agent class defines. *)
Definition tools (agent : Agent) : list Tool :=
  match agent with
  | OnboardingAgent => [save_profile_and_start_cooking]
  | ChefAgent =>
      [request_camera; set_timer; suggest_dishes; show_grocery_list;
       save_to_grocery_list; clear_grocery_list; start_recipe]
  | RecipeAgent =>
      [update_recipe; update_step; request_camera; set_timer; show_grocery_list;
       save_to_grocery_list; finish_recipe]
  end.

(** The agent of the session after a tool call.  Three tools end with
    [ctx.session.update_agent(..)]; when such a tool raises before that
    line ([completed] is false) the agent stays, as it does after any other
    tool. *)
Definition after_tool (agent : Agent) (call : Tool * bool) : Agent :=
  let (tool, completed) := call in
  if completed then
    match agent, tool with
    | OnboardingAgent, save_profile_and_start_cooking => ChefAgent
    | ChefAgent, start_recipe => RecipeAgent
    | RecipeAgent, finish_recipe => ChefAgent
    | _, _ => agent
    end
  else agent.

Definition after_tools (agent : Agent) (calls : list (Tool * bool)) : Agent :=
  fold_left after_tool calls agent.

(** The first agent of a session, as [entrypoint] builds it from
    [load_profile(user_id) or {}]: for a profile with keys it is
    [ChefAgent(profile, ..)], whose constructor calls [_format_profile] and
    so raises its [KeyError]; otherwise it is [OnboardingAgent(..)]. *)
Definition first_agent (loaded : option Profile.t) : Profile.Result Agent :=
  match loaded with
  | Some profile =>
      if Profile.truthy profile
      then Profile.bind (Profile._format_profile profile) (fun _ => Profile.Ok ChefAgent)
      else Profile.Ok OnboardingAgent
  | None => Profile.Ok OnboardingAgent
  end.

End Session.

(* ------------------------------------------------------------------ *)
(** ** More sample inputs *)

(** A room whose participant publishes a camera track. *)
Definition camera_room : Room :=
  [mkParticipant "guest" [mkPublication (Some "TR_cam") SOURCE_CAMERA]].

(** 30 items and a compaction task scheduled. *)
Definition long_world : World :=
  mkWorld (map sample_item (seq 0 30)) true false [Pending] [FlagSet; TaskCreated].

Definition sample_summary : string :=
  "Making minestrone for four; the onions are sweating.".

(* ================================================================== *)
(** * Properties *)

(** ** Python lists *)

Lemma clamp_nonneg n i : (0 <= i)%Z -> Py.clamp n i = Nat.min (Z.to_nat i) n.
Proof.
  intros H. unfold Py.clamp.
  destruct (Z.ltb_spec i 0); [lia | reflexivity].
Qed.

Lemma clamp_neg n i : (i < 0)%Z -> Py.clamp n i = n - Z.to_nat (- i).
Proof.
  intros H. unfold Py.clamp.
  destruct (Z.ltb_spec i 0); lia.
Qed.

Lemma slice_to_from {A} i (l : list A) : Py.slice_to i l ++ Py.slice_from i l = l.
Proof. apply firstn_skipn. Qed.

Lemma slice_from_len_minus {A} (k : nat) (l : list A) :
  k <= length l ->
  Py.slice_from (Py.len l - Z.of_nat k) l = skipn (length l - k) l.
Proof.
  intros H. unfold Py.slice_from, Py.len.
  rewrite clamp_nonneg by lia. f_equal. lia.
Qed.

Lemma slice_to_len_minus {A} (k : nat) (l : list A) :
  k <= length l ->
  Py.slice_to (Py.len l - Z.of_nat k) l = firstn (length l - k) l.
Proof.
  intros H. unfold Py.slice_to, Py.len.
  rewrite clamp_nonneg by lia. f_equal. lia.
Qed.

(** Inserting at [len(l) - 1] puts the element before the last one. *)
Lemma insert_before_last {A} (x y : A) (l : list A) :
  Py.insert (Py.len (l ++ [y]) - 1) x (l ++ [y]) = l ++ [x; y].
Proof.
  unfold Py.insert, Py.len. rewrite length_app. cbn [length].
  rewrite clamp_nonneg by lia.
  replace (Nat.min _ _) with (length l + 0) by lia.
  rewrite firstn_app_2, skipn_app.
  rewrite skipn_all2 by lia.
  replace (length l + 0 - length l) with 0 by lia.
  cbn. rewrite app_nil_r. reflexivity.
Qed.

(** ** FrameBuffer *)

Lemma append_elems {A} (x : A) (d : Py.deque A) :
  length (Py.elems d) <= Py.maxlen d ->
  Py.elems (Py.append x d) =
    skipn (length (Py.elems d) + 1 - Py.maxlen d) (Py.elems d ++ [x]).
Proof.
  intros H. unfold Py.append. cbn [Py.elems].
  rewrite length_app. cbn [length].
  destruct (Nat.ltb_spec (Py.maxlen d) (length (Py.elems d) + 1)).
  - replace (length (Py.elems d) + 1 - Py.maxlen d) with 1 by lia.
    destruct (Py.elems d ++ [x]); reflexivity.
  - replace (length (Py.elems d) + 1 - Py.maxlen d) with 0 by lia. reflexivity.
Qed.

Lemma append_maxlen {A} (x : A) (d : Py.deque A) :
  Py.maxlen (Py.append x d) = Py.maxlen d.
Proof. reflexivity. Qed.

(** A deque of capacity [c] fed from empty holds the last [c] elements. *)
Lemma fed_deque_elems {A} (c : nat) (xs : list A) :
  let d := fold_left (fun d x => Py.append x d) xs (Py.deque_new c) in
  Py.maxlen d = c /\ Py.elems d = skipn (length xs - c) xs.
Proof.
  induction xs as [| x xs IH] using rev_ind; cbn zeta.
  - split; reflexivity.
  - rewrite fold_left_app. cbn [fold_left].
    destruct IH as [Hc He]. split; [rewrite append_maxlen; exact Hc |].
    rewrite append_elems.
    + rewrite He, Hc, length_skipn, length_app. cbn [length].
      rewrite !skipn_app, skipn_skipn. f_equal.
      * f_equal. lia.
      * rewrite length_skipn. f_equal. lia.
    + rewrite He, Hc, length_skipn. lia.
Qed.

(** C2. After any sequence of N frames was appended to the frame buffer
    (capacity 3), the buffer holds min(N, 3) frames, namely the last ones
    of the sequence in arrival order; one more append to a buffer that is
    full drops the oldest frame, and otherwise drops nothing. *)
Theorem frame_buffer_holds_last_frames {A} (frames : list A) (frame : A) :
  let buffer := frames_appended frames in
  length (Py.to_list buffer) = Nat.min (length frames) FRAME_BUFFER_MAXLEN /\
  Py.to_list buffer = skipn (length frames - FRAME_BUFFER_MAXLEN) frames /\
  Py.to_list (Py.append frame buffer) =
    (if FRAME_BUFFER_MAXLEN <=? length frames
     then tl (Py.to_list buffer) ++ [frame]
     else Py.to_list buffer ++ [frame]).
Proof.
  cbn zeta. unfold frames_appended, Py.to_list.
  destruct (fed_deque_elems FRAME_BUFFER_MAXLEN frames) as [Hc He].
  cbn zeta in Hc, He.
  set (buffer := fold_left _ frames _) in *.
  assert (Hlen : length (Py.elems buffer) = Nat.min (length frames) FRAME_BUFFER_MAXLEN).
  { rewrite He, length_skipn. lia. }
  split; [exact Hlen |]. split; [exact He |].
  unfold Py.append. cbv zeta. cbn [Py.elems].
  rewrite Hc, length_app, Hlen. cbn [length].
  destruct (Nat.leb_spec FRAME_BUFFER_MAXLEN (length frames)) as [H | H].
  - destruct (Nat.ltb_spec FRAME_BUFFER_MAXLEN
                (Nat.min (length frames) FRAME_BUFFER_MAXLEN + 1)) as [_ | H']; [| lia].
    destruct (Py.elems buffer) eqn:E; [| reflexivity].
    cbn in Hlen. unfold FRAME_BUFFER_MAXLEN in *. lia.
  - destruct (Nat.ltb_spec FRAME_BUFFER_MAXLEN
                (Nat.min (length frames) FRAME_BUFFER_MAXLEN + 1)) as [H' | _]; [lia |].
    reflexivity.
Qed.

(** ** Image stripping *)

Lemma strip_old_images_unfold (items : list ChatItem) :
  _strip_old_images items =
    map strip_item (firstn (length items - 2) items) ++ skipn (length items - 2) items.
Proof.
  unfold _strip_old_images, KEEP_IMAGES_IN_LAST_N, Py.len, Py.slice_to, Py.slice_from.
  destruct (Z.ltb_spec 2 (Z.of_nat (length items))) as [H | H].
  - rewrite clamp_neg by lia. reflexivity.
  - replace (length items - 2) with 0 by lia. reflexivity.
Qed.

Lemma strip_old_images_length (items : list ChatItem) :
  length (_strip_old_images items) = length items.
Proof.
  rewrite strip_old_images_unfold, length_app, length_map, length_firstn, length_skipn.
  lia.
Qed.

Lemma strip_old_images_nth (items : list ChatItem) (i : nat) :
  nth_error (_strip_old_images items) i =
    if i + 2 <? length items
    then option_map strip_item (nth_error items i)
    else nth_error items i.
Proof.
  rewrite strip_old_images_unfold.
  destruct (Nat.ltb_spec (i + 2) (length items)) as [H | H].
  - rewrite nth_error_app1 by (rewrite length_map, length_firstn; lia).
    rewrite nth_error_map, nth_error_firstn.
    destruct (Nat.ltb_spec i (length items - 2)); [reflexivity | lia].
  - rewrite nth_error_app2 by (rewrite length_map, length_firstn; lia).
    rewrite length_map, length_firstn, nth_error_skipn. f_equal. lia.
Qed.

Lemma filter_idempotent {A} (p : A -> bool) (l : list A) :
  filter p (filter p l) = filter p l.
Proof.
  induction l as [| x l IH]; [reflexivity |].
  cbn. destruct (p x) eqn:E; cbn; [rewrite E |]; congruence.
Qed.

Lemma filter_disjoint {A} (p q : A -> bool) (l : list A) :
  (forall x, q x = true -> p x = false) -> filter p (filter q l) = [].
Proof.
  intros Hpq. induction l as [| x l IH]; [reflexivity |].
  cbn. destruct (q x) eqn:E; [cbn; rewrite (Hpq x E) |]; exact IH.
Qed.

Lemma text_parts_not_image (l : list ChatContent) :
  text_parts (filter (fun c => negb (is_image c)) l) = text_parts l.
Proof.
  induction l as [| c l IH]; [reflexivity |].
  destruct c; cbn; rewrite ?IH; reflexivity.
Qed.

Lemma strip_item_idempotent (item : ChatItem) :
  strip_item (strip_item item) = strip_item item.
Proof.
  destruct item as [[r [s | l]] | id]; cbn; [reflexivity | | reflexivity].
  rewrite filter_idempotent. reflexivity.
Qed.

Lemma strip_item_images (item : ChatItem) : image_parts (strip_item item) = [].
Proof.
  destruct item as [[r [s | l]] | id]; cbn; [reflexivity | | reflexivity].
  unfold image_parts. cbn. apply filter_disjoint.
  intros x Hx. destruct (is_image x); [discriminate | reflexivity].
Qed.

Lemma strip_item_other_parts (item : ChatItem) :
  other_parts (strip_item item) = other_parts item.
Proof.
  destruct item as [[r [s | l]] | id]; cbn; [reflexivity | | reflexivity].
  unfold other_parts. cbn. apply filter_idempotent.
Qed.

Lemma strip_item_text (item : ChatItem) : item_text (strip_item item) = item_text item.
Proof.
  destruct item as [[r [s | l]] | id]; cbn; [reflexivity | | reflexivity].
  rewrite text_parts_not_image. reflexivity.
Qed.

Lemma strip_item_role (item : ChatItem) : item_role (strip_item item) = item_role item.
Proof. destruct item as [[r [s | l]] | id]; reflexivity. Qed.

Lemma strip_item_not_multipart (item : ChatItem) :
  is_multipart item = false -> strip_item item = item.
Proof. destruct item as [[r [s | l]] | id]; cbn; [reflexivity | discriminate | reflexivity]. Qed.

(** C3. Whatever the length of the history, stripping leaves every
    position occupied by an item with the same role, the same text and the
    same non-image parts in the same order; an item before the last two has
    no image part afterwards; an item whose content is not a multi-part
    list, and each of the last two items, is unchanged. *)
Theorem strip_old_images_spec (items : list ChatItem) (i : nat) (item : ChatItem) :
  nth_error items i = Some item ->
  exists item',
    nth_error (_strip_old_images items) i = Some item' /\
    length (_strip_old_images items) = length items /\
    item_role item' = item_role item /\
    item_text item' = item_text item /\
    other_parts item' = other_parts item /\
    (i + 2 < length items -> image_parts item' = []) /\
    (is_multipart item = false -> item' = item) /\
    (length items <= i + 2 -> item' = item).
Proof.
  intros Hi. rewrite strip_old_images_nth, Hi.
  destruct (Nat.ltb_spec (i + 2) (length items)) as [H | H].
  - exists (strip_item item). cbn [option_map].
    repeat split.
    + apply strip_old_images_length.
    + apply strip_item_role.
    + apply strip_item_text.
    + apply strip_item_other_parts.
    + intros _. apply strip_item_images.
    + apply strip_item_not_multipart.
    + lia.
  - exists item. repeat split; try lia.
    apply strip_old_images_length.
Qed.

(** C10. Stripping twice gives the same history as stripping once. *)
Theorem strip_old_images_idempotent (items : list ChatItem) :
  _strip_old_images (_strip_old_images items) = _strip_old_images items.
Proof.
  rewrite (strip_old_images_unfold (_strip_old_images items)).
  rewrite strip_old_images_length.
  rewrite strip_old_images_unfold.
  set (k := length items - 2).
  assert (Hk : length (map strip_item (firstn k items)) = k).
  { rewrite length_map, length_firstn. subst k. lia. }
  set (older := map strip_item (firstn k items)) in *.
  assert (Hf : firstn k older = older) by (rewrite <- Hk; apply firstn_all).
  assert (Hs : skipn k older = []) by (rewrite <- Hk; apply skipn_all).
  rewrite firstn_app, skipn_app, Hk, Nat.sub_diag, Hf, Hs.
  cbn [firstn skipn]. rewrite app_nil_r. cbn [app].
  f_equal. subst older. rewrite map_map.
  apply map_ext. intros a. apply strip_item_idempotent.
Qed.

(** ** Frame injection *)

Section InjectionProperties.

Variable VideoFrame : Type.
Variable encode : VideoFrame -> list ascii.
Variable b64encode : list ascii -> string.

(** On a content that has a last part, the loop puts the images of the
    frames, in the order of the frames, right before that part. *)
Lemma insert_frames_before_last (frames : list VideoFrame)
    (init : list ChatContent) (last : ChatContent) :
  insert_frames encode b64encode frames (init ++ [last]) =
    init ++ map (frame_image encode b64encode) frames ++ [last].
Proof.
  unfold insert_frames. revert init.
  induction frames as [| f frames IH]; intros init; [reflexivity |].
  cbn [fold_left map]. rewrite insert_before_last.
  change (init ++ [frame_image encode b64encode f; last])
    with (init ++ [frame_image encode b64encode f] ++ [last]).
  rewrite app_assoc, IH, <- app_assoc. reflexivity.
Qed.

Lemma inject_parts (buffer : Py.deque VideoFrame) (r : string)
    (init : list ChatContent) (last : ChatContent) :
  _inject_video_frames encode b64encode buffer (mkMessage r (Parts (init ++ [last]))) =
    mkMessage r
      (Parts (init ++ map (frame_image encode b64encode) (Py.to_list buffer) ++ [last])).
Proof.
  unfold _inject_video_frames, Py.is_empty, Py.to_list.
  destruct (Py.elems buffer) as [| f fs] eqn:E; [reflexivity |].
  cbn [content role content_list]. rewrite insert_frames_before_last. reflexivity.
Qed.

Lemma inject_plain (buffer : Py.deque VideoFrame) (r s : string) :
  _inject_video_frames encode b64encode buffer (mkMessage r (Plain s)) =
    if Py.is_empty buffer then mkMessage r (Plain s)
    else mkMessage r
           (Parts (map (frame_image encode b64encode) (Py.to_list buffer) ++ [Text s])).
Proof.
  unfold _inject_video_frames, Py.is_empty, Py.to_list.
  destruct (Py.elems buffer) as [| f fs] eqn:E; [reflexivity |].
  cbn [content role content_list].
  change [Text s] with ([] ++ [Text s]) at 1.
  rewrite insert_frames_before_last. reflexivity.
Qed.

(** C4. With the frame buffer as any sequence of appends leaves it, the
    injection adds one image part per buffered frame, so at most 3, in the
    buffer's oldest-to-newest order and right before the last part of the
    message content; a plain content is first made the one-part list of
    itself, so the images come before it; and with an empty buffer the
    message is returned as it was. *)
Theorem inject_video_frames_spec (frames : list VideoFrame) (r : string)
    (init : list ChatContent) (last : ChatContent) (s : string)
    (n : nat) (m : ChatMessage) :
  let buffer := frames_appended frames in
  let images := map (frame_image encode b64encode) (Py.to_list buffer) in
  length images <= 3 /\
  images = map (frame_image encode b64encode) (skipn (length frames - 3) frames) /\
  _inject_video_frames encode b64encode buffer (mkMessage r (Parts (init ++ [last]))) =
    mkMessage r (Parts (init ++ images ++ [last])) /\
  _inject_video_frames encode b64encode buffer (mkMessage r (Plain s)) =
    (if Py.is_empty buffer then mkMessage r (Plain s)
     else mkMessage r (Parts (images ++ [Text s]))) /\
  _inject_video_frames encode b64encode (Py.mkDeque n []) m = m.
Proof.
  cbn zeta.
  destruct (fed_deque_elems FRAME_BUFFER_MAXLEN frames) as [_ He].
  cbn zeta in He. fold (frames_appended frames) in He.
  unfold Py.to_list at 1 2. rewrite He.
  split; [| split; [| split; [| split]]].
  - rewrite length_map, length_skipn. unfold FRAME_BUFFER_MAXLEN. lia.
  - reflexivity.
  - rewrite inject_parts. unfold Py.to_list. rewrite He. reflexivity.
  - rewrite inject_plain. unfold Py.to_list. rewrite He. reflexivity.
  - reflexivity.
Qed.

(** On an empty content list there is no last part: index [-1] of the
    empty list is its start, and the first image ends up last. *)
Example insert_frames_empty_content (f1 f2 f3 : VideoFrame) :
  insert_frames encode b64encode [f1; f2; f3] [] =
    [frame_image encode b64encode f2; frame_image encode b64encode f3;
     frame_image encode b64encode f1].
Proof. reflexivity. Qed.

End InjectionProperties.

(** ** History compaction: one run of the task *)

Lemma append_items_fields (new_items : list ChatItem) (w : World) :
  append_items new_items w =
    mkWorld (items w ++ new_items) (_summarization_in_progress w)
            (_summarization_lock w) (tasks w) (trace w).
Proof.
  unfold append_items. revert w.
  induction new_items as [| x xs IH]; intros w; cbn [fold_left].
  - rewrite app_nil_r. destruct w; reflexivity.
  - rewrite IH. unfold append_item. cbn. rewrite <- app_assoc. reflexivity.
Qed.

Lemma truthy_nonempty (s : string) : Py.truthy s = true <-> s <> "".
Proof. destruct s; cbn; split; congruence. Qed.

(** The split of a history that is over the threshold. *)
Lemma split_over_threshold (l : list ChatItem) :
  (SUMMARIZE_THRESHOLD < Py.len l)%Z ->
  Py.slice_to (Py.len l - KEEP_RECENT_ITEMS) l = firstn (length l - 8) l /\
  Py.slice_from (Py.len l - KEEP_RECENT_ITEMS) l = skipn (length l - 8) l /\
  length (skipn (length l - 8) l) = 8.
Proof.
  unfold SUMMARIZE_THRESHOLD, KEEP_RECENT_ITEMS, Py.len. intros H.
  assert (H8 : 8 <= length l) by lia.
  split; [exact (slice_to_len_minus 8 l H8) |].
  split; [exact (slice_from_len_minus 8 l H8) |].
  rewrite length_skipn. lia.
Qed.

(** A task that finds the history at or under the threshold ends at once. *)
Lemma run_compaction_under_threshold create during (w : World) :
  _summarization_lock w = false -> tasks w = [Pending] ->
  (Py.len (items w) <= SUMMARIZE_THRESHOLD)%Z ->
  run_compaction create during w = task_exit w [].
Proof.
  intros Hl Ht Hlen. unfold run_compaction, task_begin.
  rewrite Hl, Ht. cbn [take_pending].
  destruct (Z.leb_spec (Py.len (items w)) SUMMARIZE_THRESHOLD); [| lia].
  reflexivity.
Qed.

(** A task that extracts no line makes no call and ends at once. *)
Lemma run_compaction_no_request create during (w : World) :
  _summarization_lock w = false -> tasks w = [Pending] ->
  (SUMMARIZE_THRESHOLD < Py.len (items w))%Z ->
  summary_request (firstn (length (items w) - 8) (items w)) = None ->
  run_compaction create during w = task_exit w [].
Proof.
  intros Hl Ht Hlen Hreq. unfold run_compaction, task_begin.
  rewrite Hl, Ht. cbn [take_pending].
  destruct (Z.leb_spec (Py.len (items w)) SUMMARIZE_THRESHOLD); [lia |].
  cbv zeta. destruct (split_over_threshold _ Hlen) as (-> & _ & _).
  rewrite Hreq. reflexivity.
Qed.

(** A task that makes the call: what it does when the call is over. *)
Lemma run_compaction_request create during (w : World) request :
  _summarization_lock w = false -> tasks w = [Pending] ->
  (SUMMARIZE_THRESHOLD < Py.len (items w))%Z ->
  summary_request (firstn (length (items w) - 8) (items w)) = Some request ->
  run_compaction create during w =
    match create request with
    | Returned summary =>
        if Py.truthy summary
        then mkWorld (items w ++ during) false false []
                     (trace w ++ [LogError; FlagCleared])
        else mkWorld (items w ++ during) false false [] (trace w ++ [FlagCleared])
    | Raised =>
        mkWorld (items w ++ during) false false [] (trace w ++ [LogError; FlagCleared])
    end.
Proof.
  intros Hl Ht Hlen Hreq. unfold run_compaction, task_begin.
  rewrite Hl, Ht. cbn [take_pending].
  destruct (Z.leb_spec (Py.len (items w)) SUMMARIZE_THRESHOLD); [lia |].
  cbv zeta. destruct (split_over_threshold _ Hlen) as (-> & -> & H8).
  rewrite Hreq. cbn [tasks take_awaiting].
  rewrite append_items_fields. unfold task_resume. cbn [tasks take_awaiting items trace
    _summarization_in_progress _summarization_lock].
  unfold _summarize_older_turns. rewrite Hreq.
  destruct (create request) as [summary |].
  - destruct (Py.truthy summary).
    + unfold summary_msg, task_exit, log. cbn. rewrite <- app_assoc. reflexivity.
    + reflexivity.
  - unfold task_exit, log. cbn. rewrite <- app_assoc. reflexivity.
Qed.

Lemma maybe_summarize_idle (w : World) :
  idle w -> (SUMMARIZE_THRESHOLD < Py.len (items w))%Z ->
  _maybe_summarize w =
    mkWorld (items w) true false [Pending] (trace w ++ [FlagSet; TaskCreated]).
Proof.
  intros (Hf & Hl & Ht) Hlen. unfold _maybe_summarize.
  destruct (Z.leb_spec (Py.len (items w)) SUMMARIZE_THRESHOLD); [lia |].
  rewrite Hf, Hl, Ht. reflexivity.
Qed.

Lemma maybe_summarize_in_progress (w : World) :
  _summarization_in_progress w = true -> _maybe_summarize w = w.
Proof.
  intros Hf. unfold _maybe_summarize. rewrite Hf, orb_true_r. reflexivity.
Qed.

Lemma no_text_item_text (item : ChatItem) :
  no_text item = true -> Py.truthy (item_text item) = false.
Proof.
  destruct item as [[r [s | l]] | id]; cbn; intros H.
  - destruct (Py.truthy s); [discriminate | reflexivity].
  - assert (E : text_parts l = []).
    { induction l as [| c l IH]; [reflexivity |].
      cbn in H. apply andb_true_iff in H as [Hc Hl].
      destruct c; cbn in Hc; try discriminate; cbn; auto. }
    rewrite E. reflexivity.
  - reflexivity.
Qed.

Lemma no_text_no_request (l : list ChatItem) :
  forallb no_text l = true -> summary_request l = None.
Proof.
  intros H. unfold summary_request.
  assert (E : conversation_lines l = []).
  { induction l as [| item l IH]; [reflexivity |].
    cbn in H. apply andb_true_iff in H as [Hi Hl].
    cbn. rewrite (no_text_item_text item Hi). auto. }
  rewrite E. reflexivity.
Qed.

(** C1 (what the code does). A history of 25 items is over the threshold of
    24: the trigger schedules the task, the task splits the history at 17
    and awaits the summary.  When the summarizer returns a non-empty
    summary, the constructor of the summary message is given a string as
    content and raises, inside the [try] and before [items.clear()]: the
    error is logged, the flag is cleared, and the history keeps its 25
    items (with whatever the foreground appended meanwhile) instead of
    becoming the summary message and the last 8 items. *)
Theorem compaction_of_25_items_raises (create : string -> Outcome)
    (during : list ChatItem) (w : World) (summary : string) :
  idle w ->
  length (items w) = 25 ->
  _summarize_older_turns create (firstn 17 (items w)) = Returned summary ->
  summary <> "" ->
  let w' := run_compaction create during (_maybe_summarize w) in
  summary_msg summary = None /\
  items w' = items w ++ during /\
  length (items (_do_summarize create (_maybe_summarize w))) = 25 /\
  trace w' = trace w ++ [FlagSet; TaskCreated; LogError; FlagCleared] /\
  idle w'.
Proof.
  intros Hidle Hlen Hsum Hne. cbn zeta. unfold _do_summarize.
  assert (Hover : (SUMMARIZE_THRESHOLD < Py.len (items w))%Z).
  { unfold Py.len, SUMMARIZE_THRESHOLD. lia. }
  rewrite (maybe_summarize_idle w Hidle Hover).
  unfold _summarize_older_turns in Hsum.
  destruct (summary_request (firstn 17 (items w))) as [request |] eqn:Hreq.
  - rewrite !(run_compaction_request create _ _ request); cbn [items tasks
      _summarization_lock]; try reflexivity; try assumption;
      try (rewrite Hlen; exact Hreq).
    rewrite Hsum. apply truthy_nonempty in Hne. rewrite Hne.
    cbn [items trace]. rewrite app_nil_r, Hlen, <- app_assoc.
    repeat split.
  - injection Hsum as <-. congruence.
Qed.

(** However it goes, a scheduled task ends with nothing in flight. *)
Lemma run_compaction_idle (create : string -> Outcome) (during : list ChatItem)
    (w : World) :
  _summarization_lock w = false -> tasks w = [Pending] ->
  idle (run_compaction create during w).
Proof.
  intros Hl Ht.
  destruct (Z.leb_spec (Py.len (items w)) SUMMARIZE_THRESHOLD) as [H | H].
  - rewrite run_compaction_under_threshold by assumption. repeat split.
  - destruct (summary_request (firstn (length (items w) - 8) (items w)))
      as [request |] eqn:Hreq.
    + rewrite (run_compaction_request create during w request) by assumption.
      destruct (create request) as [s |]; [destruct (Py.truthy s) |]; repeat split.
    + rewrite run_compaction_no_request by assumption. repeat split.
Qed.

(** C5. A scheduled compaction task always ends with the in-flight flag
    cleared, the gate released and no task left.  When the re-checked
    length is not over the threshold, or when the summarization call
    raises, the task changes nothing in the history: run alone it leaves
    the very same list, and run beside the foreground it leaves that list
    followed by what the foreground appended meanwhile.  If the history is
    still over the threshold afterwards, the next trigger schedules a new
    task. *)
Theorem failed_compaction_keeps_history (create : string -> Outcome)
    (during : list ChatItem) (w : World) :
  _summarization_lock w = false ->
  tasks w = [Pending] ->
  let older_items := Py.slice_to (Py.len (items w) - KEEP_RECENT_ITEMS) (items w) in
  let w' := run_compaction create during w in
  idle w' /\
  ((Py.len (items w) <= SUMMARIZE_THRESHOLD)%Z ->
     items w' = items w /\ items (_do_summarize create w) = items w) /\
  ((SUMMARIZE_THRESHOLD < Py.len (items w))%Z ->
   _summarize_older_turns create older_items = Raised ->
     items w' = items w ++ during /\ items (_do_summarize create w) = items w) /\
  ((SUMMARIZE_THRESHOLD < Py.len (items w'))%Z ->
     tasks (_maybe_summarize w') = [Pending]).
Proof.
  intros Hl Ht. cbn zeta.
  pose proof (run_compaction_idle create during w Hl Ht) as Hidle.
  split; [exact Hidle |]. split; [| split].
  - intros H. unfold _do_summarize.
    rewrite !run_compaction_under_threshold by assumption. split; reflexivity.
  - intros H Hraised.
    destruct (split_over_threshold _ H) as (E & _ & _). rewrite E in Hraised.
    unfold _summarize_older_turns in Hraised. unfold _do_summarize.
    destruct (summary_request (firstn (length (items w) - 8) (items w)))
      as [request |] eqn:Hreq; [| discriminate].
    rewrite !(run_compaction_request create _ w request) by assumption.
    rewrite Hraised. cbn [items]. rewrite app_nil_r. split; reflexivity.
  - intros H. rewrite (maybe_summarize_idle _ Hidle H). reflexivity.
Qed.

(** C9. When no item of the older segment has any text to extract, the
    summarizer returns the empty string without calling the model, and the
    task leaves the history as it is, still over the threshold, with no
    summary message and no item removed; the flag is cleared all the same. *)
Theorem compaction_without_text (create : string -> Outcome) (during : list ChatItem)
    (w : World) :
  _summarization_lock w = false ->
  tasks w = [Pending] ->
  (SUMMARIZE_THRESHOLD < Py.len (items w))%Z ->
  let older_items := Py.slice_to (Py.len (items w) - KEEP_RECENT_ITEMS) (items w) in
  forallb no_text older_items = true ->
  let w' := run_compaction create during w in
  _summarize_older_turns create older_items = Returned "" /\
  items w' = items w /\
  (SUMMARIZE_THRESHOLD < Py.len (items w'))%Z /\
  count_event is_LogCompacted w' = count_event is_LogCompacted w /\
  idle w'.
Proof.
  intros Hl Ht Hover. cbn zeta.
  destruct (split_over_threshold _ Hover) as (-> & _ & _). intros Hmute.
  pose proof (no_text_no_request _ Hmute) as Hreq.
  rewrite run_compaction_no_request by assumption.
  unfold _summarize_older_turns. rewrite Hreq.
  unfold task_exit, count_event. cbn [items trace].
  repeat split; try assumption.
  rewrite filter_app. cbn. rewrite app_nil_r. reflexivity.
Qed.

(** ** History compaction: interleavings *)

Ltac count_events :=
  unfold count_event, task_exit, log, replace_items;
  cbn [items tasks trace _summarization_in_progress _summarization_lock];
  rewrite ?filter_app, ?length_app;
  cbn [filter length app is_FlagSet is_FlagCleared is_TaskCreated is_LogCompacted];
  try lia.

(** What one step can do while the flag is set: nothing is scheduled, the
    flag is not set again, and it is cleared (with at most one replacement
    of the history) exactly by the step that ends the task. *)
Lemma in_flight_step_effect (w w' : World) :
  coherent w -> _summarization_in_progress w = true -> step w w' ->
  coherent w' /\
  count_event is_TaskCreated w' = count_event is_TaskCreated w /\
  count_event is_FlagSet w' = count_event is_FlagSet w /\
  count_event is_FlagCleared w' =
    count_event is_FlagCleared w + (if _summarization_in_progress w' then 0 else 1) /\
  count_event is_LogCompacted w' <=
    count_event is_LogCompacted w + (if _summarization_in_progress w' then 0 else 1).
Proof.
  intros Hcoh Hflag Hstep.
  destruct w as [its f l ts tr]. cbn in Hflag. subst f.
  unfold coherent in Hcoh. cbn in Hcoh.
  destruct ts as [| [| older recent] [| t ts]]; try contradiction;
    destruct Hcoh as [Hf Hl]; try discriminate; clear Hf; subst l.
  - (* the task has not started *)
    inversion Hstep; subst; clear Hstep.
    + unfold append_item, coherent. cbn. repeat split; count_events.
    + rewrite maybe_summarize_in_progress by reflexivity.
      unfold coherent. cbn. repeat split; count_events.
    + unfold task_begin. cbn [_summarization_lock tasks take_pending items].
      destruct (Z.leb_spec (Py.len its) SUMMARIZE_THRESHOLD).
      * unfold coherent. cbn. repeat split; count_events.
      * cbv zeta.
        destruct (summary_request _); unfold coherent; cbn; repeat split; count_events.
    + unfold task_resume. cbn. unfold coherent. cbn. repeat split; count_events.
  - (* the task awaits the model *)
    inversion Hstep; subst; clear Hstep.
    + unfold append_item, coherent. cbn. repeat split; count_events.
    + rewrite maybe_summarize_in_progress by reflexivity.
      unfold coherent. cbn. repeat split; count_events.
    + unfold task_begin. cbn. unfold coherent. cbn. repeat split; count_events.
    + unfold task_resume. cbn [tasks take_awaiting].
      destruct outcome as [summary |]; [destruct (Py.truthy summary) |];
        unfold coherent; cbn; repeat split; count_events.
Qed.

Lemma coherent_tasks (w : World) : coherent w -> length (tasks w) <= 1.
Proof.
  unfold coherent.
  destruct (tasks w) as [| [| older recent] [| t ts]]; cbn; intros H; try lia;
    contradiction.
Qed.

(** The same over any number of steps taken while the flag is set. *)
Lemma in_flight_steps_effect (w w' : World) :
  in_flight_steps w w' ->
  coherent w -> _summarization_in_progress w = true ->
  coherent w' /\
  count_event is_TaskCreated w' = count_event is_TaskCreated w /\
  count_event is_FlagSet w' = count_event is_FlagSet w /\
  count_event is_FlagCleared w' =
    count_event is_FlagCleared w + (if _summarization_in_progress w' then 0 else 1) /\
  count_event is_LogCompacted w' <=
    count_event is_LogCompacted w + (if _summarization_in_progress w' then 0 else 1).
Proof.
  induction 1 as [w | w1 w2 w3 Hflag Hstep Hrest IH]; intros Hcoh Hf.
  - rewrite Hf. repeat split; try lia. exact Hcoh.
  - destruct (in_flight_step_effect w1 w2 Hcoh Hf Hstep) as (Hc2 & Ht & Hs & Hcl & Hlog).
    destruct (_summarization_in_progress w2) eqn:Hf2.
    + destruct (IH Hc2 eq_refl) as (Hc3 & Ht3 & Hs3 & Hcl3 & Hlog3).
      repeat split; try lia. exact Hc3.
    + inversion Hrest; subst.
      * rewrite Hf2. repeat split; try lia. exact Hc2.
      * congruence.
Qed.

Lemma in_flight_snoc (w1 w2 w3 : World) :
  in_flight_steps w1 w2 -> _summarization_in_progress w2 = true -> step w2 w3 ->
  in_flight_steps w1 w3.
Proof.
  induction 1 as [w | wa wb wc Hf Hs Hrest IH]; intros Hf2 Hstep.
  - eapply in_flight_next; [exact Hf2 | exact Hstep | apply in_flight_refl].
  - eapply in_flight_next; [exact Hf | exact Hs | apply IH; assumption].
Qed.

Lemma append_items_in_flight (new_items : list ChatItem) (w : World) :
  _summarization_in_progress w = true -> in_flight_steps w (append_items new_items w).
Proof.
  revert w. induction new_items as [| x xs IH]; intros w Hf.
  - apply in_flight_refl.
  - eapply in_flight_next; [exact Hf | apply (step_append w x) |].
    apply IH. exact Hf.
Qed.

Lemma in_flight_app (w1 w2 w3 : World) :
  in_flight_steps w1 w2 -> in_flight_steps w2 w3 -> in_flight_steps w1 w3.
Proof.
  induction 1 as [w | wa wb wc Hf Hs Hrest IH]; intros H23; [exact H23 |].
  eapply in_flight_next; [exact Hf | exact Hs | apply IH; exact H23].
Qed.

(** A run of a scheduled task is such a sequence of steps. *)
Lemma run_compaction_in_flight (create : string -> Outcome) (during : list ChatItem)
    (w : World) :
  _summarization_in_progress w = true ->
  _summarization_lock w = false -> tasks w = [Pending] ->
  in_flight_steps w (run_compaction create during w).
Proof.
  intros Hf Hl Ht.
  assert (H1 : in_flight_steps w (task_begin w)).
  { eapply in_flight_next; [exact Hf | apply step_begin | apply in_flight_refl]. }
  unfold run_compaction. revert H1. unfold task_begin.
  rewrite Hl, Ht. cbn [take_pending].
  destruct (Z.leb_spec (Py.len (items w)) SUMMARIZE_THRESHOLD); [intros H1; exact H1 |].
  cbv zeta. destruct (summary_request _) as [request |]; [| intros H1; exact H1].
  cbn [tasks take_awaiting]. intros H1.
  eapply in_flight_snoc; [| | apply step_resume].
  - eapply in_flight_app; [exact H1 |].
    apply append_items_in_flight. exact Hf.
  - rewrite append_items_fields. exact Hf.
Qed.

(** C6. From a state with nothing in flight and a history over the
    threshold, the first trigger sets the flag and schedules one task; a
    second trigger right after it returns without any effect.  From then on,
    through every interleaving of foreground appends, further triggers and
    task steps, as long as the compaction is in flight: at most one task
    exists, a trigger changes nothing, one task was created, the flag was
    set once, and it is cleared (and the history replaced at most once) only
    by the step that ends the task.  Running the task to its end clears the
    flag once and leaves nothing in flight. *)
Theorem concurrent_triggers_one_task (create : string -> Outcome)
    (during : list ChatItem) (w w' : World) :
  idle w ->
  (SUMMARIZE_THRESHOLD < Py.len (items w))%Z ->
  let w1 := _maybe_summarize w in
  let w2 := _maybe_summarize w1 in
  let w3 := run_compaction create during w2 in
  in_flight_steps w2 w' ->
  (tasks w1 = [Pending] /\ _summarization_in_progress w1 = true) /\
  w2 = w1 /\
  (length (tasks w') <= 1 /\
   (_summarization_in_progress w' = true -> _maybe_summarize w' = w') /\
   count_event is_TaskCreated w' = count_event is_TaskCreated w + 1 /\
   count_event is_FlagSet w' = count_event is_FlagSet w + 1 /\
   count_event is_FlagCleared w' =
     count_event is_FlagCleared w + (if _summarization_in_progress w' then 0 else 1) /\
   count_event is_LogCompacted w' <=
     count_event is_LogCompacted w + (if _summarization_in_progress w' then 0 else 1)) /\
  (idle w3 /\
   count_event is_TaskCreated w3 = count_event is_TaskCreated w + 1 /\
   count_event is_FlagSet w3 = count_event is_FlagSet w + 1 /\
   count_event is_FlagCleared w3 = count_event is_FlagCleared w + 1).
Proof.
  intros Hidle Hover. cbn zeta.
  rewrite (maybe_summarize_idle w Hidle Hover).
  set (w1 := mkWorld (items w) true false [Pending] (trace w ++ [FlagSet; TaskCreated])).
  assert (H21 : _maybe_summarize w1 = w1) by (apply maybe_summarize_in_progress; reflexivity).
  rewrite H21. intros Hsteps.
  assert (Hcoh : coherent w1) by (unfold coherent; cbn; split; reflexivity).
  assert (Hc1 : count_event is_TaskCreated w1 = count_event is_TaskCreated w + 1)
    by (subst w1; count_events).
  assert (Hs1 : count_event is_FlagSet w1 = count_event is_FlagSet w + 1)
    by (subst w1; count_events).
  assert (Hx1 : count_event is_FlagCleared w1 = count_event is_FlagCleared w)
    by (subst w1; count_events).
  assert (Hg1 : count_event is_LogCompacted w1 = count_event is_LogCompacted w)
    by (subst w1; count_events).
  split; [split; reflexivity |]. split; [reflexivity |]. split.
  - destruct (in_flight_steps_effect w1 w' Hsteps Hcoh eq_refl)
      as (Hc' & Ht' & Hs' & Hx' & Hg').
    split; [apply coherent_tasks; exact Hc' |].
    split; [apply maybe_summarize_in_progress |].
    repeat split; lia.
  - pose proof (run_compaction_idle create during w1 eq_refl eq_refl) as Hidle3.
    pose proof (run_compaction_in_flight create during w1 eq_refl eq_refl eq_refl) as Hrun.
    destruct (in_flight_steps_effect w1 _ Hrun Hcoh eq_refl)
      as (_ & Ht' & Hs' & Hx' & _).
    destruct Hidle3 as (Hf3 & Hl3 & Ht3). rewrite Hf3 in Hx'.
    repeat split; try assumption; lia.
Qed.

(** ** Frame sampler *)

Lemma no_camera_publication (pubs : list TrackPublication) :
  (forall pub t, In pub pubs -> track pub = Some t -> source pub <> SOURCE_CAMERA) ->
  camera_publication pubs = None.
Proof.
  induction pubs as [| pub pubs IH]; intros H; [reflexivity |].
  cbn. destruct (track pub) as [t |] eqn:Et.
  - destruct (source pub) eqn:Es; cbn;
      try (apply IH; intros pub' t' Hin; apply H; right; exact Hin).
    exfalso. apply (H pub t); [left; reflexivity | exact Et | exact Es].
  - apply IH. intros pub' t' Hin. apply H. right. exact Hin.
Qed.

Lemma no_camera_no_track (room : Room) :
  no_camera room -> find_video_track room = None.
Proof.
  unfold no_camera. induction room as [| p room IH]; intros H; [reflexivity |].
  cbn. rewrite no_camera_publication.
  - apply IH. intros p' pub t Hin. apply H. right. exact Hin.
  - intros pub t Hin. apply (H p pub t). left. reflexivity. exact Hin.
Qed.

Section SamplerProperties.

Variable VideoFrame : Type.

(** While the sampler is discovering and no poll sees a camera track, the
    buffer and the latest-frame slot stay as they are. *)
Lemma discovering_quiet (inputs : list (Input VideoFrame)) (s : Sampler VideoFrame) :
  phase s = Discovering ->
  Py.elems (_frame_buffer s) = [] -> _latest_frame s = None ->
  Forall quiet inputs ->
  let s' := sampler_run inputs s in
  phase s' = Discovering /\ Py.elems (_frame_buffer s') = [] /\ _latest_frame s' = None.
Proof.
  intros Hp Hb Hl Hq. revert s Hp Hb Hl.
  induction Hq as [| i inputs Hi Hq IH]; intros s Hp Hb Hl; cbn zeta.
  - repeat split; assumption.
  - unfold sampler_run. cbn [fold_left]. apply IH.
    + unfold sampler_step. rewrite Hp.
      destruct i as [room | frame | |]; try exact Hp.
      cbn in Hi. rewrite (no_camera_no_track room Hi). reflexivity.
    + unfold sampler_step. rewrite Hp.
      destruct i as [room | frame | |]; try exact Hb.
      cbn in Hi. rewrite (no_camera_no_track room Hi). reflexivity.
    + unfold sampler_step. rewrite Hp.
      destruct i as [room | frame | |]; try exact Hl.
      cbn in Hi. rewrite (no_camera_no_track room Hi). reflexivity.
Qed.

(** C8. When the discovery finds no participant publishing a camera
    track, the step of the sampler empties the frame buffer and the
    latest-frame slot and then suspends on a sleep of one second, back at
    the top of the discovery loop; a snapshot taken then is empty, and it
    stays empty through whatever happens until a poll sees a camera
    track. *)
Theorem discovery_without_camera_clears (room : Room) (s : Sampler VideoFrame)
    (inputs : list (Input VideoFrame)) :
  phase s = Discovering ->
  no_camera room ->
  Forall quiet inputs ->
  let s' := fst (sampler_step (Poll room) s) in
  snd (sampler_step (Poll room) s) = [Sleep 1000] /\
  phase s' = Discovering /\
  _latest_frame s' = None /\
  snapshot s' = [] /\
  snapshot (sampler_run inputs s') = [].
Proof.
  intros Hp Hroom Hq. cbn zeta.
  unfold sampler_step. rewrite Hp, (no_camera_no_track room Hroom).
  cbn [fst snd]. repeat split.
  unfold snapshot, Py.to_list.
  apply (discovering_quiet inputs); try reflexivity. exact Hq.
Qed.

End SamplerProperties.

(** ** Turn-completion hook *)

Section HookProperties.

Variable VideoFrame : Type.
Variable encode : VideoFrame -> list ascii.
Variable b64encode : list ascii -> string.

(** C7 (as the code has it). In the Chef and Recipe states a completed user
    turn calls, in this order, the image stripping on the turn's chat
    context, the frame injection into the new message from the frame
    buffer, and the compaction trigger on the agent's own chat context, and
    nothing else of the pipeline.  The Onboarding state defines no hook: a
    completed user turn calls none of the three and changes nothing. *)
Theorem turn_completed_pipeline (agent : Agent) (t : Turn VideoFrame) :
  let t' := on_user_turn_completed encode b64encode agent t in
  match agent with
  | OnboardingAgent => t' = t
  | ChefAgent | RecipeAgent =>
      calls t' =
        calls t ++ [Call_strip_old_images; Call_inject_video_frames; Call_maybe_summarize] /\
      turn_ctx t' = _strip_old_images (turn_ctx t) /\
      new_message t' =
        _inject_video_frames encode b64encode (frame_buffer t) (new_message t) /\
      chat_ctx t' = _maybe_summarize (chat_ctx t) /\
      frame_buffer t' = frame_buffer t
  end.
Proof.
  destruct agent; cbn zeta; [reflexivity | |];
    unfold on_user_turn_completed, pipeline_hook, call_maybe_summarize,
      call_inject_video_frames, call_strip_old_images;
    cbn [calls turn_ctx new_message chat_ctx frame_buffer];
    rewrite <- !app_assoc; repeat split.
Qed.

End HookProperties.

(* ================================================================== *)
(** * The properties on sample inputs *)

Lemma compaction_of_25_items_raises_witness :
  let w' := run_compaction sample_create [image_item 0] (_maybe_summarize sample_world) in
  summary_msg "Making minestrone for four; the onions are sweating." = None /\
  items w' = items sample_world ++ [image_item 0] /\
  length (items (_do_summarize sample_create (_maybe_summarize sample_world))) = 25 /\
  trace w' = trace sample_world ++ [FlagSet; TaskCreated; LogError; FlagCleared] /\
  idle w'.
Proof.
  apply (compaction_of_25_items_raises sample_create [image_item 0] sample_world
           "Making minestrone for four; the onions are sweating.").
  - repeat split.
  - reflexivity.
  - reflexivity.
  - discriminate.
Defined.

Lemma strip_old_images_spec_witness :
  exists item',
    nth_error (_strip_old_images (map sample_item (seq 0 3))) 0 = Some item' /\
    length (_strip_old_images (map sample_item (seq 0 3))) = 3 /\
    item_role item' = "user" /\
    item_text item' = "A" /\
    other_parts item' = [Text "A"] /\
    (0 + 2 < 3 -> image_parts item' = []) /\
    (is_multipart (sample_item 0) = false -> item' = sample_item 0) /\
    (3 <= 0 + 2 -> item' = sample_item 0).
Proof.
  apply (strip_old_images_spec (map sample_item (seq 0 3)) 0 (sample_item 0)).
  reflexivity.
Defined.

Lemma failed_compaction_keeps_history_witness :
  let w := _maybe_summarize sample_world in
  let older_items := Py.slice_to (Py.len (items w) - KEEP_RECENT_ITEMS) (items w) in
  let w' := run_compaction failing_create [image_item 0] w in
  idle w' /\
  ((Py.len (items w) <= SUMMARIZE_THRESHOLD)%Z ->
     items w' = items w /\ items (_do_summarize failing_create w) = items w) /\
  ((SUMMARIZE_THRESHOLD < Py.len (items w))%Z ->
   _summarize_older_turns failing_create older_items = Raised ->
     items w' = items w ++ [image_item 0] /\
     items (_do_summarize failing_create w) = items w) /\
  ((SUMMARIZE_THRESHOLD < Py.len (items w'))%Z ->
     tasks (_maybe_summarize w') = [Pending]).
Proof.
  apply (failed_compaction_keeps_history failing_create [image_item 0]
           (_maybe_summarize sample_world)).
  - reflexivity.
  - reflexivity.
Defined.

Lemma compaction_without_text_witness :
  let older_items :=
    Py.slice_to (Py.len (items image_world) - KEEP_RECENT_ITEMS) (items image_world) in
  let w' := run_compaction sample_create [] image_world in
  _summarize_older_turns sample_create older_items = Returned "" /\
  items w' = items image_world /\
  (SUMMARIZE_THRESHOLD < Py.len (items w'))%Z /\
  count_event is_LogCompacted w' = count_event is_LogCompacted image_world /\
  idle w'.
Proof.
  apply (compaction_without_text sample_create [] image_world).
  - reflexivity.
  - reflexivity.
  - reflexivity.
  - reflexivity.
Defined.

Lemma concurrent_triggers_one_task_witness :
  let w := sample_world in
  let w1 := _maybe_summarize w in
  let w2 := _maybe_summarize w1 in
  let w' := task_begin w2 in
  let w3 := run_compaction sample_create [] w2 in
  (tasks w1 = [Pending] /\ _summarization_in_progress w1 = true) /\
  w2 = w1 /\
  (length (tasks w') <= 1 /\
   (_summarization_in_progress w' = true -> _maybe_summarize w' = w') /\
   count_event is_TaskCreated w' = count_event is_TaskCreated w + 1 /\
   count_event is_FlagSet w' = count_event is_FlagSet w + 1 /\
   count_event is_FlagCleared w' =
     count_event is_FlagCleared w + (if _summarization_in_progress w' then 0 else 1) /\
   count_event is_LogCompacted w' <=
     count_event is_LogCompacted w + (if _summarization_in_progress w' then 0 else 1)) /\
  (idle w3 /\
   count_event is_TaskCreated w3 = count_event is_TaskCreated w + 1 /\
   count_event is_FlagSet w3 = count_event is_FlagSet w + 1 /\
   count_event is_FlagCleared w3 = count_event is_FlagCleared w + 1).
Proof.
  apply (concurrent_triggers_one_task sample_create [] sample_world
           (task_begin (_maybe_summarize (_maybe_summarize sample_world)))).
  - repeat split.
  - reflexivity.
  - eapply in_flight_next.
    + reflexivity.
    + apply step_begin.
    + apply in_flight_refl.
Defined.

Lemma discovery_without_camera_clears_witness :
  let s := mkSampler (frames_appended [1; 2; 3; 4]) (Some 4) Discovering in
  let s' := fst (sampler_step (Poll sample_room) s) in
  snd (sampler_step (Poll sample_room) s) = [Sleep 1000] /\
  phase s' = Discovering /\
  _latest_frame s' = None /\
  snapshot s' = [] /\
  snapshot (sampler_run [FrameEvent 5; Tick; Poll sample_room] s') = [].
Proof.
  assert (Hroom : no_camera sample_room).
  { intros p pub t [<- | []] [<- | [<- | []]] Ht; cbn in *; discriminate. }
  apply (discovery_without_camera_clears nat sample_room
           (mkSampler (frames_appended [1; 2; 3; 4]) (Some 4) Discovering)
           [FrameEvent 5; Tick; Poll sample_room]).
  - reflexivity.
  - exact Hroom.
  - repeat constructor. exact Hroom.
Defined.

(** C7, where the claim fails: a user turn completed in the Onboarding
    state.  The hook calls nothing: the first item of the turn context keeps
    its image, the new message gets no frame although the buffer holds two,
    and no compaction task is scheduled although the history has 25 items.
    The same turn in the Chef state goes through the three calls. *)
Lemma onboarding_turn_skips_pipeline :
  let t' := on_user_turn_completed sample_encode sample_b64encode OnboardingAgent
              sample_turn in
  calls t' = [] /\
  option_map image_parts (hd_error (turn_ctx t')) =
    Some [ImageContent "data:image/jpeg;base64,AAAA"] /\
  Py.to_list (frame_buffer t') = [1; 2] /\
  new_message t' = mkMessage "user" (Parts [Text "does this look done?"]) /\
  length (items (chat_ctx t')) = 25 /\
  tasks (chat_ctx t') = [] /\
  calls (on_user_turn_completed sample_encode sample_b64encode ChefAgent sample_turn) =
    [Call_strip_old_images; Call_inject_video_frames; Call_maybe_summarize].
Proof. cbn zeta. repeat split. Qed.

(* ================================================================== *)
(** * Further properties of the context pipeline *)

(** ** History compaction *)

(** No step of the compactor takes an item out of the history or logs a
    compaction. *)
Lemma step_history_grows (w w' : World) :
  step w w' ->
  exists appended,
    items w' = items w ++ appended /\
    count_event is_LogCompacted w' = count_event is_LogCompacted w.
Proof.
  intros Hstep. inversion Hstep; subst; clear Hstep.
  - exists [item]. split; reflexivity.
  - exists []. rewrite app_nil_r. unfold _maybe_summarize.
    destruct ((Py.len (items w) <=? SUMMARIZE_THRESHOLD)%Z || _summarization_in_progress w);
      split; try reflexivity; count_events.
  - exists []. rewrite app_nil_r. unfold task_begin.
    destruct (_summarization_lock w); [split; reflexivity |].
    destruct (take_pending (tasks w)); [| split; reflexivity].
    destruct (Py.len (items w) <=? SUMMARIZE_THRESHOLD)%Z; [split; [reflexivity | count_events] |].
    cbv zeta. destruct (summary_request _); split; try reflexivity; count_events.
  - exists []. rewrite app_nil_r. unfold task_resume.
    destruct (take_awaiting (tasks w)) as [[[older recent] rest] |]; [| split; reflexivity].
    destruct outcome as [summary |]; [destruct (Py.truthy summary) |];
      unfold summary_msg, new_ChatMessage; split; try reflexivity; count_events.
Qed.

Lemma steps_history_grows (w w' : World) :
  steps w w' ->
  exists appended,
    items w' = items w ++ appended /\
    count_event is_LogCompacted w' = count_event is_LogCompacted w.
Proof.
  induction 1 as [w | w1 w2 w3 Hstep Hrest IH].
  - exists []. rewrite app_nil_r. split; reflexivity.
  - destruct (step_history_grows _ _ Hstep) as (a1 & H1 & L1).
    destruct IH as (a2 & H2 & L2).
    exists (a1 ++ a2). rewrite H2, H1, <- app_assoc. split; [reflexivity | congruence].
Qed.

(** A run of the task is a sequence of steps. *)
Lemma run_compaction_steps (create : string -> Outcome) (during : list ChatItem)
    (w : World) :
  steps w (run_compaction create during w).
Proof.
  unfold run_compaction.
  assert (H1 : steps w (task_begin w)).
  { eapply steps_next; [apply step_begin | apply steps_refl]. }
  assert (Happ : forall l w1 w2, steps w1 w2 -> steps w1 (append_items l w2)).
  { intros l. induction l as [| x l IH] using rev_ind; intros w1 w2 H; [exact H |].
    unfold append_items. rewrite fold_left_app. cbn [fold_left].
    fold (append_items l w2).
    assert (Hsnoc : forall a b c, steps a b -> step b c -> steps a c).
    { intros a b c Hab Hbc. induction Hab as [a | a1 a2 a3 Hs Hr IHr].
      - eapply steps_next; [exact Hbc | apply steps_refl].
      - eapply steps_next; [exact Hs | apply IHr; exact Hbc]. }
    apply (Hsnoc _ (append_items l w2)); [apply IH; exact H | apply step_append]. }
  destruct (take_awaiting (tasks (task_begin w))) as [[[older recent] rest] |];
    [| exact H1].
  assert (Hsnoc : forall a b c, steps a b -> step b c -> steps a c).
  { intros a b c Hab Hbc. induction Hab as [a | a1 a2 a3 Hs Hr IHr].
    - eapply steps_next; [exact Hbc | apply steps_refl].
    - eapply steps_next; [exact Hs | apply IHr; exact Hbc]. }
  apply (Hsnoc _ (append_items during (task_begin w))); [| apply step_resume].
  apply Happ. exact H1.
Qed.

(** X1. The compactor never replaces the history.  Through every
    interleaving of foreground appends, triggers and task steps, whatever
    the model returns, the history afterwards is the history before followed
    by what was appended, and no compaction is logged: the summary message
    cannot be built from a string, so the task never reaches
    [items.clear()].  In particular a run of the task keeps every item. *)
Theorem history_is_never_replaced (create : string -> Outcome)
    (during : list ChatItem) (w w' : World) :
  steps w w' ->
  (exists appended,
     items w' = items w ++ appended /\
     count_event is_LogCompacted w' = count_event is_LogCompacted w) /\
  (forall summary, summary_msg summary = None) /\
  exists appended,
    items (run_compaction create during w) = items w ++ appended /\
    count_event is_LogCompacted (run_compaction create during w) =
      count_event is_LogCompacted w.
Proof.
  intros Hsteps. split; [apply steps_history_grows; exact Hsteps |].
  split; [reflexivity |].
  apply steps_history_grows. apply run_compaction_steps.
Qed.

(** X2. A history that is over the threshold stays over it through every
    interleaving, so from then on every trigger that finds nothing in
    flight schedules another compaction task. *)
Theorem history_over_threshold_stays_over (w w' : World) :
  steps w w' ->
  (SUMMARIZE_THRESHOLD < Py.len (items w))%Z ->
  (SUMMARIZE_THRESHOLD < Py.len (items w'))%Z /\
  (idle w' ->
   _maybe_summarize w' =
     mkWorld (items w') true false [Pending] (trace w' ++ [FlagSet; TaskCreated])).
Proof.
  intros Hsteps Hover.
  destruct (steps_history_grows _ _ Hsteps) as (appended & Hitems & _).
  assert (Hover' : (SUMMARIZE_THRESHOLD < Py.len (items w'))%Z).
  { rewrite Hitems. unfold Py.len in *. rewrite length_app. lia. }
  split; [exact Hover' |].
  intros Hidle. apply maybe_summarize_idle; assumption.
Qed.

Lemma coherent_flag_tasks (w : World) :
  coherent w ->
  length (tasks w) = if _summarization_in_progress w then 1 else 0.
Proof.
  unfold coherent.
  destruct (tasks w) as [| [| older recent] [| t ts]]; cbn;
    intros H; try contradiction; destruct H as [-> _]; reflexivity.
Qed.

(** What one step does to the bookkeeping, from any coherent state: [ds]
    counts the tasks it schedules and [dc] the tasks it ends. *)
Lemma step_effect (w w' : World) :
  coherent w -> step w w' ->
  coherent w' /\
  exists ds dc,
    count_event is_FlagSet w' = count_event is_FlagSet w + ds /\
    count_event is_TaskCreated w' = count_event is_TaskCreated w + ds /\
    count_event is_FlagCleared w' = count_event is_FlagCleared w + dc /\
    count_event is_LogCompacted w' <= count_event is_LogCompacted w + dc /\
    length (tasks w') + dc = length (tasks w) + ds.
Proof.
  intros Hcoh Hstep.
  destruct (_summarization_in_progress w) eqn:Hf.
  - destruct (in_flight_step_effect w w' Hcoh Hf Hstep) as (Hc' & Ht & Hs & Hx & Hg).
    split; [exact Hc' |].
    exists 0, (if _summarization_in_progress w' then 0 else 1).
    rewrite (coherent_flag_tasks w Hcoh), (coherent_flag_tasks w' Hc'), Hf.
    destruct (_summarization_in_progress w'); repeat split; lia.
  - pose proof (coherent_flag_tasks w Hcoh) as Hlen. rewrite Hf in Hlen.
    destruct w as [its f l ts tr]. cbn in Hf, Hlen. subst f.
    destruct ts; [| discriminate]. unfold coherent in Hcoh. cbn in Hcoh.
    destruct Hcoh as [_ Hl]. subst l.
    inversion Hstep; subst; clear Hstep.
    + split; [unfold append_item, coherent; cbn; split; reflexivity |].
      exists 0, 0. unfold append_item. cbn. repeat split; count_events.
    + unfold _maybe_summarize. cbn [items _summarization_in_progress].
      destruct (Z.leb_spec (Py.len its) SUMMARIZE_THRESHOLD); cbn [orb].
      * split; [unfold coherent; cbn; split; reflexivity |].
        exists 0, 0. repeat split; count_events.
      * split; [unfold coherent; cbn; split; reflexivity |].
        exists 1, 0. cbn [tasks _summarization_lock trace app length].
        repeat split; count_events.
    + unfold task_begin. cbn.
      split; [unfold coherent; cbn; split; reflexivity |].
      exists 0, 0. repeat split; count_events.
    + unfold task_resume. cbn.
      split; [unfold coherent; cbn; split; reflexivity |].
      exists 0, 0. repeat split; count_events.
Qed.

(** X3. Through every interleaving of foreground appends, triggers and
    task steps that starts with nothing in flight: at most one compaction
    task exists; the flag is set exactly while one exists; the lock is held
    exactly while that task awaits the model, so a task never has to wait
    for it; every flag write and log entry is accounted for (tasks created
    = flag sets = flag clears + tasks still unfinished), and the history was
    replaced at most once per finished task. *)
Theorem compaction_bookkeeping_invariant (w0 w : World) :
  idle w0 ->
  steps w0 w ->
  length (tasks w) <= 1 /\
  length (tasks w) = (if _summarization_in_progress w then 1 else 0) /\
  (_summarization_lock w = true <-> exists older recent, tasks w = [Awaiting older recent]) /\
  count_event is_TaskCreated w + count_event is_FlagSet w0 =
    count_event is_TaskCreated w0 + count_event is_FlagSet w /\
  count_event is_FlagSet w + count_event is_FlagCleared w0 =
    count_event is_FlagSet w0 + count_event is_FlagCleared w + length (tasks w) /\
  count_event is_LogCompacted w + count_event is_FlagCleared w0 <=
    count_event is_LogCompacted w0 + count_event is_FlagCleared w.
Proof.
  intros Hidle Hsteps.
  assert (Hcoh0 : coherent w0).
  { destruct Hidle as (Hf & Hl & Ht). unfold coherent. rewrite Ht. split; assumption. }
  assert (Hlen0 : length (tasks w0) = 0) by (destruct Hidle as (_ & _ & ->); reflexivity).
  assert (H : coherent w /\
    count_event is_TaskCreated w + count_event is_FlagSet w0 =
      count_event is_TaskCreated w0 + count_event is_FlagSet w /\
    count_event is_FlagSet w + count_event is_FlagCleared w0 + length (tasks w0) =
      count_event is_FlagSet w0 + count_event is_FlagCleared w + length (tasks w) /\
    count_event is_LogCompacted w + count_event is_FlagCleared w0 <=
      count_event is_LogCompacted w0 + count_event is_FlagCleared w).
  { clear Hidle Hlen0. induction Hsteps as [w | w1 w2 w3 Hstep Hrest IH].
    - repeat split; try lia. exact Hcoh0.
    - destruct (step_effect w1 w2 Hcoh0 Hstep)
        as (Hc2 & ds & dc & Hs & Ht & Hx & Hg & Hn).
      destruct (IH Hc2) as (Hc3 & Ht3 & Hs3 & Hg3).
      repeat split; try lia. exact Hc3. }
  destruct H as (Hcoh & Ht & Hs & Hg).
  split; [apply coherent_tasks; exact Hcoh |].
  split; [apply coherent_flag_tasks; exact Hcoh |].
  split; [| repeat split; lia].
  unfold coherent in Hcoh.
  destruct (tasks w) as [| [| older recent] [| t ts]]; try contradiction;
    destruct Hcoh as [_ Hl]; rewrite Hl; split; intros H; try discriminate;
    try (destruct H as (o & r & H); discriminate).
  - exists older, recent. reflexivity.
  - reflexivity.
Qed.

(** ** The summarizer's input *)

Lemma conversation_lines_app (l1 l2 : list ChatItem) :
  conversation_lines (l1 ++ l2) = conversation_lines l1 ++ conversation_lines l2.
Proof.
  induction l1 as [| item l1 IH]; [reflexivity |].
  cbn. destruct (Py.truthy (item_text item)); cbn; rewrite IH; reflexivity.
Qed.

Lemma conversation_lines_strip_items (l : list ChatItem) :
  conversation_lines (map strip_item l) = conversation_lines l.
Proof.
  induction l as [| item l IH]; [reflexivity |].
  cbn. rewrite strip_item_text, strip_item_role, IH. reflexivity.
Qed.

(** X4. Image stripping never changes what the summarizer extracts: the
    lines, and so the request sent to the model (or the decision to send
    none), are the same for a history and for the stripped history. *)
Theorem strip_keeps_summary_request (items : list ChatItem) :
  conversation_lines (_strip_old_images items) = conversation_lines items /\
  summary_request (_strip_old_images items) = summary_request items.
Proof.
  assert (H : conversation_lines (_strip_old_images items) = conversation_lines items).
  { rewrite strip_old_images_unfold, conversation_lines_app,
      conversation_lines_strip_items, <- conversation_lines_app, firstn_skipn.
    reflexivity. }
  split; [exact H |]. unfold summary_request. rewrite H. reflexivity.
Qed.

Lemma truthy_append_sep (x rest : string) : Py.truthy (x ++ " " ++ rest)%string = true.
Proof. destruct x; reflexivity. Qed.

(** X5. Which items give the summarizer a line.  A message with plain
    content does when the content is not empty.  A message with a list does
    when one of its string parts is not empty, or when it has two or more
    string parts: joined with a blank, even empty strings make a text that
    is not empty.  An item without content never does. *)
Theorem item_yields_line_iff (item : ChatItem) :
  conversation_lines [item] <> [] <->
  match item with
  | Message (mkMessage _ (Plain s)) => s <> ""
  | Message (mkMessage _ (Parts l)) =>
      (exists s, In s (text_parts l) /\ s <> "") \/ 2 <= length (text_parts l)
  | NonMessage _ => False
  end.
Proof.
  assert (Hline : conversation_lines [item] <> [] <-> Py.truthy (item_text item) = true).
  { cbn. destruct (Py.truthy (item_text item)); split; congruence. }
  rewrite Hline. clear Hline.
  destruct item as [[r [s | l]] | id]; cbn [item_text content].
  - apply truthy_nonempty.
  - unfold Py.join.
    destruct (text_parts l) as [| x [| y ts]]; cbn [String.concat length In].
    + split; [discriminate |]. intros [(s & [] & _) | H]; lia.
    + rewrite truthy_nonempty. split.
      * intros H. left. exists x. split; [left; reflexivity | exact H].
      * intros [(s & [<- | []] & H) | H]; [exact H | lia].
    + rewrite truthy_append_sep. split; [intros _; right; lia | reflexivity].
  - split; [discriminate | contradiction].
Qed.

(** ** Frame sampler: the sampling loop *)

Lemma append_length {A} (x : A) (d : Py.deque A) :
  length (Py.elems d) <= Py.maxlen d ->
  length (Py.elems (Py.append x d)) <= Py.maxlen d.
Proof.
  intros H. rewrite append_elems by exact H.
  rewrite length_skipn, length_app. cbn [length]. lia.
Qed.

Lemma append_In {A} (x y : A) (d : Py.deque A) :
  In y (Py.elems (Py.append x d)) -> In y (Py.elems d) \/ y = x.
Proof.
  unfold Py.append. cbn [Py.elems]. intros H.
  assert (H' : In y (Py.elems d ++ [x])).
  { destruct (Py.maxlen d <? length (Py.elems d ++ [x])); [| exact H].
    destruct (Py.elems d ++ [x]); [exact H | right; exact H]. }
  apply in_app_or in H'. destruct H' as [H' | [<- | []]]; auto.
Qed.

(** Appending a sequence to a deque that respects its capacity. *)
Lemma fold_append_elems {A} (xs : list A) (d : Py.deque A) :
  length (Py.elems d) <= Py.maxlen d ->
  let d' := fold_left (fun d x => Py.append x d) xs d in
  Py.maxlen d' = Py.maxlen d /\
  Py.elems d' =
    skipn (length (Py.elems d) + length xs - Py.maxlen d) (Py.elems d ++ xs).
Proof.
  intros Hd. induction xs as [| x xs IH] using rev_ind; cbn zeta.
  - cbn. rewrite app_nil_r. split; [reflexivity |].
    replace (length (Py.elems d) + 0 - Py.maxlen d) with 0 by lia. reflexivity.
  - rewrite fold_left_app. cbn [fold_left]. cbn zeta in IH.
    destruct IH as [Hm He]. split; [rewrite append_maxlen; exact Hm |].
    assert (Hlen : length (Py.elems (fold_left (fun d x => Py.append x d) xs d))
                   <= Py.maxlen d).
    { rewrite He, length_skipn, length_app. lia. }
    rewrite append_elems by (rewrite Hm; exact Hlen).
    rewrite Hm, He, length_skipn, !length_app. cbn [length].
    rewrite app_assoc.
    rewrite (skipn_app _ (Py.elems d ++ xs) [x]).
    rewrite (skipn_app _ (skipn _ (Py.elems d ++ xs)) [x]).
    rewrite skipn_skipn, length_skipn, length_app. f_equal.
    + f_equal. lia.
    + f_equal. lia.
Qed.

Section SamplingProperties.

Variable VideoFrame : Type.

Lemma sampler_step_ok (i : Input VideoFrame) (s : Sampler VideoFrame) :
  sampler_ok s -> sampler_ok (fst (sampler_step i s)).
Proof.
  intros (Hm & Hl & Hd). unfold sampler_step.
  destruct (phase s) as [| t] eqn:Hp.
  - destruct (Hd eq_refl) as [He Hn].
    destruct i as [room | frame | |]; cbn [fst];
      try (split; [exact Hm | split; [exact Hl | intros _; split; assumption]]).
    destruct (find_video_track room); cbn [fst]; unfold sampler_ok; cbn.
    + rewrite Hm, He. repeat split; try discriminate. cbn. lia.
    + rewrite Hm. repeat split. lia.
  - destruct i as [room | frame | |]; cbn [fst]; unfold sampler_ok; cbn.
    + rewrite Hp. repeat split; try assumption; discriminate.
    + repeat split; try assumption; discriminate.
    + destruct (_latest_frame s) as [frame |]; cbn.
      * rewrite <- Hm. split; [reflexivity |]. split; [| discriminate].
        apply append_length. rewrite Hm. exact Hl.
      * rewrite Hp. repeat split; try assumption; discriminate.
    + rewrite Hm. repeat split. lia.
Qed.

Lemma sampler_run_ok (inputs : list (Input VideoFrame)) (s : Sampler VideoFrame) :
  sampler_ok s -> sampler_ok (sampler_run inputs s).
Proof.
  revert s. induction inputs as [| i inputs IH]; intros s Hs; [exact Hs |].
  unfold sampler_run. cbn [fold_left]. apply IH. apply sampler_step_ok. exact Hs.
Qed.

Lemma sampler_start_ok : sampler_ok (@sampler_start VideoFrame).
Proof. unfold sampler_ok, sampler_start. cbn. repeat split. lia. Qed.

Lemma sampler_run_app (inputs1 inputs2 : list (Input VideoFrame)) (s : Sampler VideoFrame) :
  sampler_run (inputs1 ++ inputs2) s = sampler_run inputs2 (sampler_run inputs1 s).
Proof. unfold sampler_run. apply fold_left_app. Qed.

(** X6. Whatever reaches the sampler, in whatever order, the frame buffer
    never holds more than three frames, and whenever the sampler is at the
    top of its discovery loop the buffer is empty and the latest-frame slot
    holds nothing. *)
Theorem sampler_buffer_bounded (inputs : list (Input VideoFrame)) :
  let s := sampler_run inputs sampler_start in
  length (snapshot s) <= 3 /\
  (phase s = Discovering -> snapshot s = [] /\ _latest_frame s = None).
Proof.
  cbn zeta. destruct (sampler_run_ok inputs _ sampler_start_ok) as (_ & Hl & Hd).
  split; [exact Hl | exact Hd].
Qed.

(** A frame in the buffer or in the slot was there before or was delivered
    by one of the inputs. *)
Lemma sampler_run_frames (inputs : list (Input VideoFrame)) (s : Sampler VideoFrame)
    (f : VideoFrame) :
  In f (Py.elems (_frame_buffer (sampler_run inputs s))) \/
    _latest_frame (sampler_run inputs s) = Some f ->
  In f (Py.elems (_frame_buffer s)) \/ _latest_frame s = Some f \/
    In (FrameEvent f) inputs.
Proof.
  revert s. induction inputs as [| i inputs IH]; intros s H.
  - destruct H; auto.
  - unfold sampler_run in H. cbn [fold_left] in H.
    apply IH in H. clear IH.
    assert (Hstep : In f (Py.elems (_frame_buffer (fst (sampler_step i s)))) \/
                    _latest_frame (fst (sampler_step i s)) = Some f ->
                    In f (Py.elems (_frame_buffer s)) \/ _latest_frame s = Some f \/
                    i = FrameEvent f).
    { unfold sampler_step.
      destruct (phase s) as [| t]; destruct i as [room | frame | |]; cbn [fst];
        try (intros [H' | H']; auto; fail).
      - destruct (find_video_track room); cbn; intros [H' | H']; auto;
          try contradiction; discriminate.
      - cbn. intros [H' | H']; auto. injection H' as <-. auto.
      - destruct (_latest_frame s) as [frame |] eqn:E; cbn.
        + intros [H' | H'].
          * apply append_In in H'. destruct H' as [H' | ->]; [left; exact H' |].
            right; left; reflexivity.
          * right; left; exact H'.
        + intros [H' | H']; [left; exact H' | congruence].
      - cbn. intros [H' | H']; [contradiction | discriminate]. }
    destruct H as [H | [H | H]].
    + destruct (Hstep (or_introl H)) as [H' | [H' | ->]]; auto. right; right; left; auto.
    + destruct (Hstep (or_intror H)) as [H' | [H' | ->]]; auto. right; right; left; auto.
    + right; right; right; exact H.
Qed.

(** X7. No frame outlives its stream: once a stream is over, whatever
    happened before, a frame found in the buffer later was delivered
    after that. *)
Theorem sampler_drops_frames_of_ended_stream
    (before after : list (Input VideoFrame)) (f : VideoFrame) :
  In f (snapshot (sampler_run (before ++ StreamOver :: after) sampler_start)) ->
  In (FrameEvent f) after.
Proof.
  intros H. rewrite sampler_run_app in H.
  unfold sampler_run at 1 in H. cbn [fold_left] in H.
  fold (sampler_run after (fst (sampler_step StreamOver (sampler_run before sampler_start)))) in H.
  pose proof (sampler_run_ok before _ sampler_start_ok) as (Hm & Hl & Hd).
  set (s := sampler_run before sampler_start) in *.
  assert (Hclear : Py.elems (_frame_buffer (fst (sampler_step StreamOver s))) = [] /\
                   _latest_frame (fst (sampler_step StreamOver s)) = None).
  { unfold sampler_step. destruct (phase s) eqn:Hp; cbn [fst].
    - apply Hd. reflexivity.
    - split; reflexivity. }
  destruct Hclear as [He Hn].
  destruct (sampler_run_frames after _ f (or_introl H)) as [H' | [H' | H']].
  - rewrite He in H'. contradiction.
  - rewrite Hn in H'. discriminate.
  - exact H'.
Qed.

Lemma skipn_repeat {A} (x : A) (k n : nat) : skipn k (repeat x n) = repeat x (n - k).
Proof.
  revert k. induction n as [| n IH]; intros k.
  - destruct k; reflexivity.
  - destruct k; [reflexivity |]. cbn. apply IH.
Qed.

(** Ticks with no frame event in between keep appending the slot's frame. *)
Lemma sampler_run_ticks (n : nat) (s : Sampler VideoFrame) (t : Track) (f : VideoFrame) :
  phase s = Streaming t -> _latest_frame s = Some f ->
  sampler_run (repeat Tick n) s =
    mkSampler (fold_left (fun d x => Py.append x d) (repeat f n) (_frame_buffer s))
              (Some f) (Streaming t).
Proof.
  revert s. induction n as [| n IH]; intros s Hp Hl.
  - destruct s as [b l p]. cbn in *. subst. reflexivity.
  - unfold sampler_run. cbn [repeat fold_left].
    fold (sampler_run (repeat Tick n) (fst (sampler_step Tick s))).
    unfold sampler_step. rewrite Hp, Hl. cbn [fst].
    rewrite IH by reflexivity. reflexivity.
Qed.

(** X8. While a stream delivers nothing new, the sampler keeps copying the
    frame that is in the slot: after three or more ticks without a frame
    event the buffer holds that one frame three times. *)
Theorem stalled_stream_fills_buffer_with_one_frame (inputs : list (Input VideoFrame))
    (t : Track) (f : VideoFrame) (n : nat) :
  let s := sampler_run inputs sampler_start in
  phase s = Streaming t ->
  _latest_frame s = Some f ->
  3 <= n ->
  snapshot (sampler_run (repeat Tick n) s) = [f; f; f].
Proof.
  cbn zeta. intros Hp Hl Hn.
  destruct (sampler_run_ok inputs _ sampler_start_ok) as (Hm & Hlen & _).
  rewrite (sampler_run_ticks n _ t f Hp Hl).
  unfold snapshot, Py.to_list. cbn [_frame_buffer].
  set (b := _frame_buffer (sampler_run inputs sampler_start)) in *.
  destruct (fold_append_elems (repeat f n) b) as [_ He]; [rewrite Hm; exact Hlen |].
  cbn zeta in He. rewrite He, Hm, repeat_length, skipn_app, skipn_repeat.
  unfold FRAME_BUFFER_MAXLEN in *.
  rewrite skipn_all2 by lia.
  replace (n - (length (Py.elems b) + n - 3 - length (Py.elems b))) with 3 by lia.
  reflexivity.
Qed.

Lemma sampler_run_frame_events (frames : list VideoFrame) (s : Sampler VideoFrame)
    (t : Track) :
  phase s = Streaming t ->
  phase (sampler_run (map FrameEvent frames) s) = Streaming t /\
  _frame_buffer (sampler_run (map FrameEvent frames) s) = _frame_buffer s.
Proof.
  revert s. induction frames as [| f frames IH]; intros s Hp; [split; [exact Hp | reflexivity] |].
  unfold sampler_run. cbn [map fold_left].
  fold (sampler_run (map FrameEvent frames) (fst (sampler_step (FrameEvent f) s))).
  unfold sampler_step. rewrite Hp. cbn [fst].
  destruct (IH (mkSampler (_frame_buffer s) (Some f) (Streaming t)) eq_refl) as [H1 H2].
  split; [exact H1 | exact H2].
Qed.

(** X9. Of the frames that a stream delivers between two ticks, only the
    newest is sampled: the tick appends that frame to the buffer, and the
    earlier ones are gone. *)
Theorem sampler_samples_newest_frame (s : Sampler VideoFrame) (t : Track)
    (frames : list VideoFrame) (f : VideoFrame) :
  phase s = Streaming t ->
  let s' := sampler_run (map FrameEvent (frames ++ [f]) ++ [Tick]) s in
  _frame_buffer s' = Py.append f (_frame_buffer s) /\
  _latest_frame s' = Some f /\
  phase s' = Streaming t.
Proof.
  intros Hp. cbn zeta.
  rewrite map_app, <- app_assoc, sampler_run_app.
  destruct (sampler_run_frame_events frames s t Hp) as [Hp1 Hb1].
  set (s1 := sampler_run (map FrameEvent frames) s) in *.
  assert (E1 : fst (sampler_step (FrameEvent f) s1) =
               mkSampler (_frame_buffer s) (Some f) (Streaming t)).
  { unfold sampler_step. rewrite Hp1, Hb1. reflexivity. }
  unfold sampler_run. cbn [map app fold_left]. rewrite E1.
  unfold sampler_step. cbn [phase _latest_frame _frame_buffer fst].
  repeat split.
Qed.

End SamplingProperties.

(** ** Frame injection on any content *)

Lemma insert_length {A} (i : Z) (x : A) (l : list A) :
  length (Py.insert i x l) = S (length l).
Proof.
  unfold Py.insert. cbv zeta. rewrite length_app. cbn [length].
  rewrite length_firstn, length_skipn. lia.
Qed.

Lemma insert_filter_out {A} (q : A -> bool) (i : Z) (x : A) (l : list A) :
  q x = false -> filter q (Py.insert i x l) = filter q l.
Proof.
  intros Hx. unfold Py.insert. cbv zeta. rewrite filter_app. cbn [filter]. rewrite Hx.
  rewrite <- filter_app, firstn_skipn. reflexivity.
Qed.

Section InjectionOnAnyContent.

Variable VideoFrame : Type.
Variable encode : VideoFrame -> list ascii.
Variable b64encode : list ascii -> string.

Lemma insert_frames_length (frames : list VideoFrame) (content : list ChatContent) :
  length (insert_frames encode b64encode frames content) = length content + length frames.
Proof.
  unfold insert_frames. revert content.
  induction frames as [| f frames IH]; intros content; cbn [fold_left length]; [lia |].
  rewrite IH, insert_length. lia.
Qed.

Lemma insert_frames_other_parts (frames : list VideoFrame) (content : list ChatContent) :
  filter (fun c => negb (is_image c)) (insert_frames encode b64encode frames content) =
    filter (fun c => negb (is_image c)) content.
Proof.
  unfold insert_frames. revert content.
  induction frames as [| f frames IH]; intros content; cbn [fold_left]; [reflexivity |].
  rewrite IH. apply insert_filter_out. reflexivity.
Qed.

(** X10. Whatever the content of the new message, the injection keeps its
    role, keeps every part that is not an image, in order (so the text is
    what it was), and adds exactly one part per buffered frame. *)
Theorem inject_keeps_parts_and_counts (buffer : Py.deque VideoFrame) (m : ChatMessage) :
  let m' := _inject_video_frames encode b64encode buffer m in
  role m' = role m /\
  filter (fun c => negb (is_image c)) (content_list (content m')) =
    filter (fun c => negb (is_image c)) (content_list (content m)) /\
  text_parts (content_list (content m')) = text_parts (content_list (content m)) /\
  length (content_list (content m')) =
    length (content_list (content m)) + length (Py.to_list buffer).
Proof.
  cbn zeta. unfold _inject_video_frames, Py.is_empty, Py.to_list.
  destruct (Py.elems buffer) as [| f fs] eqn:E.
  - cbn [length]. repeat split. lia.
  - cbn [role content content_list].
    pose proof (insert_frames_other_parts (f :: fs) (content_list (content m))) as Ho.
    split; [reflexivity |]. split; [exact Ho |]. split.
    + rewrite <- (text_parts_not_image (insert_frames _ _ _ _)), Ho.
      apply text_parts_not_image.
    + apply insert_frames_length.
Qed.

(** X11. On a message whose content is an empty list there is no last part
    to insert before: the image of the oldest buffered frame is placed
    first and every later image is inserted before it, so the oldest frame
    ends up last. *)
Theorem inject_into_empty_content (buffer : Py.deque VideoFrame) (r : string)
    (f : VideoFrame) (fs : list VideoFrame) :
  Py.to_list buffer = f :: fs ->
  _inject_video_frames encode b64encode buffer (mkMessage r (Parts [])) =
    mkMessage r
      (Parts (map (frame_image encode b64encode) fs ++ [frame_image encode b64encode f])).
Proof.
  unfold Py.to_list. intros E.
  unfold _inject_video_frames, Py.is_empty, Py.to_list. rewrite E.
  cbn [role content content_list]. do 2 f_equal.
  unfold insert_frames. cbn [fold_left].
  change (Py.insert (Py.len [] - 1) (frame_image encode b64encode f) [])
    with ([] ++ [frame_image encode b64encode f]).
  apply (insert_frames_before_last VideoFrame encode b64encode fs []).
Qed.

End InjectionOnAnyContent.

(** ** Profiles *)

Lemma get_set {V} (k k' : string) (v : V) (d : PyDict.dict V) :
  PyDict.get k (PyDict.set k' v d) =
    if String.eqb k k' then Some v else PyDict.get k d.
Proof.
  induction d as [| [k0 v0] d IH]; cbn.
  - destruct (String.eqb_spec k k'); reflexivity.
  - destruct (String.eqb_spec k' k0) as [-> | Hne]; cbn.
    + destruct (String.eqb_spec k k0); reflexivity.
    + destruct (String.eqb_spec k k0) as [-> | Hne'].
      * destruct (String.eqb_spec k0 k'); [congruence | reflexivity].
      * exact IH.
Qed.

(** [_format_profile] reads the five answers and the dish history only. *)
Lemma format_profile_ext (a a' : PyDict.dict string) (h : option (list Profile.Dish)) :
  (forall k, In k Profile.REQUIRED_KEYS -> PyDict.get k a = PyDict.get k a') ->
  Profile._format_profile (Profile.mkProfile a h) =
    Profile._format_profile (Profile.mkProfile a' h).
Proof.
  intros H. unfold Profile._format_profile, Profile.getitem, Profile.history.
  cbn [Profile.answers Profile.dish_history].
  rewrite !H by (cbn; auto 10). reflexivity.
Qed.

Lemma slice_from_last_five {A} (l : list A) :
  Py.slice_from (-5) l = skipn (length l - 5) l.
Proof. unfold Py.slice_from. rewrite clamp_neg by lia. reflexivity. Qed.

(** The text depends on the last five dishes only. *)
Lemma format_profile_recent (a : PyDict.dict string) (h : list Profile.Dish) :
  Profile._format_profile (Profile.mkProfile a (Some h)) =
    Profile._format_profile (Profile.mkProfile a (Some (skipn (length h - 5) h))).
Proof.
  unfold Profile._format_profile, Profile.history.
  cbn [Profile.answers Profile.dish_history].
  assert (E : forall lines : list string,
    match h with
    | [] => lines
    | _ :: _ => lines ++
        [("Recent dishes cooked: " ++
          Py.join ", " (map Profile.format_dish (Py.slice_from (-5) h)))%string]
    end =
    match skipn (length h - 5) h with
    | [] => lines
    | _ :: _ => lines ++
        [("Recent dishes cooked: " ++
          Py.join ", " (map Profile.format_dish
                          (Py.slice_from (-5) (skipn (length h - 5) h))))%string]
    end).
  { intros lines. rewrite !slice_from_last_five.
    replace (length (skipn (length h - 5) h) - 5) with 0
      by (rewrite length_skipn; lia).
    cbn [skipn].
    destruct h as [| d h]; [reflexivity |].
    destruct (skipn (length (d :: h) - 5) (d :: h)) eqn:Es; [| reflexivity].
    apply (f_equal (@length _)) in Es. rewrite length_skipn in Es.
    cbn [length] in Es. lia. }
  destruct (Profile.getitem "first_name" a); [| reflexivity].
  destruct (Profile.getitem "full_name" a); [| reflexivity].
  destruct (Profile.getitem "culinary_background" a); [| reflexivity].
  destruct (Profile.getitem "comfort_level" a); [| reflexivity].
  destruct (Profile.getitem "goals" a); [| reflexivity].
  cbn [Profile.bind]. cbv zeta. rewrite E. reflexivity.
Qed.

(** X12. [_format_profile] raises [KeyError] exactly when one of the five
    answers is missing from the profile, and the error names the first
    missing key in the order first_name, full_name, culinary_background,
    comfort_level, goals; with all five present it returns a text. *)
Theorem format_profile_key_error (profile : Profile.t) :
  match find (Profile.missing profile) Profile.REQUIRED_KEYS with
  | Some key => Profile._format_profile profile = Profile.KeyError key
  | None => exists text, Profile._format_profile profile = Profile.Ok text
  end.
Proof.
  unfold Profile._format_profile, Profile.getitem, Profile.REQUIRED_KEYS, Profile.missing.
  cbn [find].
  destruct (PyDict.get "first_name" (Profile.answers profile)); [| reflexivity].
  destruct (PyDict.get "full_name" (Profile.answers profile)); [| reflexivity].
  destruct (PyDict.get "culinary_background" (Profile.answers profile)); [| reflexivity].
  destruct (PyDict.get "comfort_level" (Profile.answers profile)); [| reflexivity].
  destruct (PyDict.get "goals" (Profile.answers profile)); [| reflexivity].
  cbn [Profile.bind]. eexists. reflexivity.
Qed.

(** X13. The profile text lists the last five dishes of the history and no
    others: the text for a history is the text for its last five entries,
    and a profile with an empty history reads like one without the key. *)
Theorem format_profile_lists_last_five_dishes (a : PyDict.dict string)
    (h : list Profile.Dish) :
  Profile._format_profile (Profile.mkProfile a (Some h)) =
    Profile._format_profile (Profile.mkProfile a (Some (skipn (length h - 5) h))) /\
  length (skipn (length h - 5) h) <= 5 /\
  Profile._format_profile (Profile.mkProfile a (Some [])) =
    Profile._format_profile (Profile.mkProfile a None).
Proof.
  split; [apply format_profile_recent |].
  split; [rewrite length_skipn; lia | reflexivity].
Qed.

(** X14. In the onboarding tool, the [_format_profile] call of the new
    Chef agent never raises [KeyError]: whatever the agent's profile held
    before, after the update it has the five answers just given, and the
    text returned is the one of the new answers with the dish history the
    profile had.  The profile handed to [save_profile] is the five answers
    alone. *)
Theorem onboarding_handoff_formats (old : Profile.t)
    (full_name first_name culinary_background comfort_level goals : string) :
  let handoff :=
    Profile.save_profile_and_start_cooking old
      full_name first_name culinary_background comfort_level goals in
  let given :=
    Profile.onboarding_profile
      full_name first_name culinary_background comfort_level goals in
  Profile.saved handoff = Some given /\
  Profile.chef_profile_text handoff =
    Profile._format_profile
      (Profile.mkProfile (Profile.answers given) (Profile.dish_history old)) /\
  exists text, Profile.chef_profile_text handoff = Profile.Ok text.
Proof.
  cbn zeta. unfold Profile.save_profile_and_start_cooking.
  cbn [Profile.saved Profile.chef_profile_text].
  split; [reflexivity |].
  assert (E : Profile._format_profile
                (Profile.update old
                   (Profile.onboarding_profile full_name first_name culinary_background
                      comfort_level goals)) =
              Profile._format_profile
                (Profile.mkProfile
                   (Profile.answers
                      (Profile.onboarding_profile full_name first_name
                         culinary_background comfort_level goals))
                   (Profile.dish_history old))).
  { unfold Profile.update, Profile.onboarding_profile.
    cbn [Profile.answers Profile.dish_history].
    apply format_profile_ext. intros k Hk.
    unfold PyDict.update. cbn [fold_left fst snd]. rewrite !get_set.
    cbn in Hk. destruct Hk as [<- | [<- | [<- | [<- | [<- | []]]]]]; reflexivity. }
  split; [exact E |]. rewrite E.
  unfold Profile._format_profile, Profile.onboarding_profile, Profile.getitem.
  cbn [Profile.answers PyDict.get String.eqb Ascii.eqb Bool.eqb Profile.bind].
  cbn. eexists. reflexivity.
Qed.

(** X15. Finishing a recipe that has a title appends one dish, with the
    title and today's date, to the history of the stored profile (or of the
    agent's own profile when nothing, or an empty profile, is stored),
    hands that profile to [save_profile] and takes it over into the agent's
    profile; the profile text of the new Chef agent then lists the last
    four earlier dishes followed by the new one.  Without a title nothing
    is saved and the agent's profile stays as it is. *)
Theorem finish_recipe_records_dish (loaded : option Profile.t) (up : Profile.t)
    (recipe_title today : string) :
  let base :=
    match loaded with
    | Some p => if Profile.truthy p then p else up
    | None => up
    end in
  let dish := Profile.mkDish recipe_title today in
  let handoff := Profile.finish_recipe loaded up recipe_title today in
  (recipe_title <> "" ->
   Profile.saved handoff =
     Some (Profile.mkProfile (Profile.answers base)
             (Some (Profile.history base ++ [dish]))) /\
   Profile.dish_history (Profile.user_profile handoff) =
     Some (Profile.history base ++ [dish]) /\
   Profile.chef_profile_text handoff =
     Profile._format_profile
       (Profile.mkProfile (Profile.answers (Profile.user_profile handoff))
          (Some (skipn (length (Profile.history base) - 4) (Profile.history base)
                 ++ [dish])))) /\
  Profile.finish_recipe loaded up "" today =
    Profile.mkHandoff None up (Profile._format_profile up).
Proof.
  cbn zeta. split; [| reflexivity].
  intros Hne. apply truthy_nonempty in Hne.
  unfold Profile.finish_recipe. rewrite Hne.
  cbn [Profile.saved Profile.user_profile Profile.chef_profile_text].
  set (base := match loaded with
               | Some p => if Profile.truthy p then p else up
               | None => up
               end).
  split; [reflexivity |].
  unfold Profile.update. cbn [Profile.answers Profile.dish_history].
  split; [reflexivity |].
  rewrite format_profile_recent. do 3 f_equal.
  rewrite length_app. cbn [length].
  rewrite skipn_app.
  replace (length (Profile.history base) + 1 - 5) with (length (Profile.history base) - 4)
    by lia.
  replace (length (Profile.history base) - 4 - length (Profile.history base)) with 0
    by lia.
  reflexivity.
Qed.

(** ** Grocery list tools *)

Lemma total_ingredients_unsized (items : list Grocery.Entry) (e : Grocery.Entry) :
  In e items -> Grocery.py_len (Grocery.ingredients e) = None ->
  Grocery.total_ingredients items = None.
Proof.
  intros Hin He. induction items as [| g rest IH]; [contradiction |].
  cbn. destruct Hin as [-> | Hin].
  - rewrite He. reflexivity.
  - rewrite (IH Hin). destruct (Grocery.py_len (Grocery.ingredients g)); reflexivity.
Qed.

Lemma total_ingredients_app (l1 l2 : list Grocery.Entry) (m n : nat) :
  Grocery.total_ingredients l1 = Some m -> Grocery.total_ingredients l2 = Some n ->
  Grocery.total_ingredients (l1 ++ l2) = Some (m + n).
Proof.
  revert m. induction l1 as [| g l1 IH]; intros m H1 H2; cbn in *.
  - injection H1 as <-. exact H2.
  - destruct (Grocery.py_len (Grocery.ingredients g)) as [k |]; [| discriminate].
    destruct (Grocery.total_ingredients l1) as [m' |]; [| discriminate].
    injection H1 as <-. rewrite (IH m' eq_refl H2). f_equal. lia.
Qed.

(** X16. Ingredients that parse to a JSON number, boolean or null are
    stored and published all the same, and only then the tool raises, on
    [len(parsed)].  From then on [show_grocery_list] raises for every list
    that still contains the entry. *)
Theorem unsized_ingredients_are_saved_then_raise
    (loads : string -> option Grocery.JSON) (owner : Grocery.Owner)
    (stored before after : list Grocery.Entry)
    (user_id recipe_title ingredients : string) (parsed : Grocery.JSON) :
  loads ingredients = Some parsed ->
  Grocery.py_len parsed = None ->
  let entry := Grocery.mkEntry recipe_title parsed [] in
  let run :=
    Grocery.save_to_grocery_list loads owner stored user_id recipe_title ingredients in
  Grocery.effects run =
    [Grocery.Load user_id; Grocery.Save user_id (stored ++ [entry]);
     Grocery.Publish "grocery_list_update" (stored ++ [entry])] /\
  Grocery.reply run = Grocery.TypeError /\
  Grocery.reply (Grocery.show_grocery_list (before ++ entry :: after) user_id) =
    Grocery.TypeError.
Proof.
  intros Hparse Hlen. cbn zeta. unfold Grocery.save_to_grocery_list.
  rewrite Hparse, Hlen. cbn [Grocery.effects Grocery.reply].
  split; [reflexivity |]. split; [reflexivity |].
  unfold Grocery.show_grocery_list. cbn [Grocery.reply].
  rewrite (total_ingredients_unsized (before ++ _ :: after)
             (Grocery.mkEntry recipe_title parsed [])).
  - destruct (before ++ _ :: after) eqn:E; [| reflexivity].
    destruct before; discriminate.
  - apply in_or_app. right. left. reflexivity.
  - exact Hlen.
Qed.

(** X17. Ingredients that parse to a value with a length add one entry at
    the end of the stored list, with nothing checked, and the reply states
    that length.  When the stored entries all have a length, showing the new
    list counts that many items more, across one recipe more. *)
Theorem sized_ingredients_are_appended_and_counted
    (loads : string -> option Grocery.JSON) (owner : Grocery.Owner)
    (stored : list Grocery.Entry)
    (user_id recipe_title ingredients : string) (parsed : Grocery.JSON) (n m : nat) :
  loads ingredients = Some parsed ->
  Grocery.py_len parsed = Some n ->
  Grocery.total_ingredients stored = Some m ->
  let entry := Grocery.mkEntry recipe_title parsed [] in
  let run :=
    Grocery.save_to_grocery_list loads owner stored user_id recipe_title ingredients in
  Grocery.saved_items (Grocery.effects run) = Some (stored ++ [entry]) /\
  Grocery.reply run =
    Grocery.Said ("Saved " ++ Grocery.str_of_nat n ++ " ingredients from " ++ recipe_title
                  ++ match owner with
                     | Grocery.OfChef => " to your grocery list."
                     | Grocery.OfRecipe => " to the grocery list."
                     end)%string /\
  Grocery.reply (Grocery.show_grocery_list (stored ++ [entry]) user_id) =
    Grocery.Said ("Grocery list is now on screen with " ++ Grocery.str_of_nat (m + n)
                  ++ " items across " ++ Grocery.str_of_nat (length stored + 1)
                  ++ " recipe(s).")%string.
Proof.
  intros Hparse Hlen Htotal. cbn zeta. unfold Grocery.save_to_grocery_list.
  rewrite Hparse, Hlen. cbn [Grocery.effects Grocery.reply Grocery.saved_items].
  split; [reflexivity |]. split; [reflexivity |].
  unfold Grocery.show_grocery_list. cbn [Grocery.reply].
  rewrite (total_ingredients_app stored [Grocery.mkEntry recipe_title parsed []] m n Htotal).
  - rewrite length_app. cbn [length].
    destruct (stored ++ _) eqn:E; [destruct stored; discriminate | reflexivity].
  - cbn. rewrite Hlen. f_equal. lia.
Qed.

(** X18. Clearing the list for a recipe reads the stored list, saves the
    entries of the other recipes (an entry is kept if and only if it was
    stored under another title), publishes what it saved, and doing it again
    on the result changes nothing.  Clearing without a title saves the empty
    list and does not read the stored one. *)
Theorem clear_grocery_list_removes_recipe (stored : list Grocery.Entry)
    (user_id recipe_title : string) :
  (recipe_title <> "" ->
   exists items,
     Grocery.effects (Grocery.clear_grocery_list stored user_id recipe_title) =
       [Grocery.Load user_id; Grocery.Save user_id items;
        Grocery.Publish "grocery_list_update" items] /\
     (forall e, In e items <-> In e stored /\ Grocery.recipe e <> recipe_title) /\
     length items <= length stored /\
     Grocery.effects (Grocery.clear_grocery_list items user_id recipe_title) =
       [Grocery.Load user_id; Grocery.Save user_id items;
        Grocery.Publish "grocery_list_update" items]) /\
  Grocery.effects (Grocery.clear_grocery_list stored user_id "") =
    [Grocery.Save user_id []; Grocery.Publish "grocery_list_update" []].
Proof.
  split; [| reflexivity].
  intros Hne. apply truthy_nonempty in Hne.
  unfold Grocery.clear_grocery_list. rewrite Hne.
  cbn [Grocery.effects].
  exists (filter (fun i => negb (String.eqb (Grocery.recipe i) recipe_title)) stored).
  split; [reflexivity |]. split; [| split].
  - intros e. rewrite filter_In. split; intros [H1 H2]; split; try exact H1.
    + destruct (String.eqb_spec (Grocery.recipe e) recipe_title); [discriminate | assumption].
    + destruct (String.eqb_spec (Grocery.recipe e) recipe_title); [contradiction | reflexivity].
  - apply filter_length_le.
  - rewrite filter_idempotent. reflexivity.
Qed.

(** ** Recipe links *)

Lemma rstrip_spec (chars : list ascii) (s : string) :
  exists tail,
    s = (Link.rstrip chars s ++ tail)%string /\
    Link.all_among chars tail = true /\
    match Link.last_char (Link.rstrip chars s) with
    | Some c => Link.among chars c = false
    | None => Link.rstrip chars s = EmptyString
    end.
Proof.
  induction s as [| c s IH].
  - exists EmptyString. repeat split.
  - destruct IH as (tail & Hs & Ht & Hl). cbn [Link.rstrip].
    destruct (Link.rstrip chars s) as [| d r] eqn:E.
    + cbn in Hs. subst tail. destruct (Link.among chars c) eqn:Ec.
      * exists (String c s). cbn. rewrite Ec, Ht. repeat split.
      * exists s. cbn. split; [reflexivity |]. split; [exact Ht | exact Ec].
    + exists tail. split; [cbn; f_equal; exact Hs |]. split; [exact Ht |].
      change (Link.last_char (String c (String d r)))
        with (Link.last_char (String d r)).
      destruct (Link.last_char (String d r)); [exact Hl | discriminate].
Qed.

Lemma string_app_assoc (a b c : string) :
  ((a ++ b) ++ c = a ++ (b ++ c))%string.
Proof. induction a as [| x a IH]; cbn; [reflexivity | rewrite IH; reflexivity]. Qed.

Lemma rstrip_keeps_front (chars : list ascii) (a b : string) (c : ascii) :
  Link.among chars c = false ->
  Link.rstrip chars (a ++ String c b) = (a ++ String c (Link.rstrip chars b))%string.
Proof.
  intros Hc. induction a as [| x a IH].
  - cbn. destruct (Link.rstrip chars b); [rewrite Hc |]; reflexivity.
  - cbn [String.append Link.rstrip]. rewrite IH.
    destruct a; reflexivity.
Qed.

Lemma host_chars_slash_free (s : string) : Link.slash_free (Link.host_chars s) = true.
Proof.
  induction s as [| c s IH]; [reflexivity |].
  cbn. destruct (Ascii.eqb c "/") eqn:E; [reflexivity |]. cbn. rewrite E. exact IH.
Qed.

Lemma host_chars_of_host (h rest : string) :
  Link.slash_free h = true ->
  Link.host_chars (h ++ String "/" rest) = h.
Proof.
  induction h as [| c h IH]; intros H; [reflexivity |].
  cbn in *. apply andb_true_iff in H as [Hc Hh].
  destruct (Ascii.eqb c "/"); [discriminate |]. rewrite (IH Hh). reflexivity.
Qed.

Lemma nonempty_spec (s g : string) :
  Link.nonempty s = Some g -> g = s /\ g <> EmptyString.
Proof. destruct s; cbn; intros H; [discriminate |]. injection H as <-. split; congruence. Qed.

Lemma domain_at_spec (s g : string) :
  Link.domain_at s = Some g -> g <> EmptyString /\ Link.slash_free g = true.
Proof.
  unfold Link.domain_at.
  destruct (match Link.drop_prefix "https://" s with
            | Some rest => Some rest
            | None => Link.drop_prefix "http://" s
            end) as [rest |]; [| discriminate].
  assert (H : forall x, Link.nonempty (Link.host_chars x) = Some g ->
                        g <> EmptyString /\ Link.slash_free g = true).
  { intros x Hx. apply nonempty_spec in Hx as [-> Hne].
    split; [exact Hne | apply host_chars_slash_free]. }
  destruct (Link.drop_prefix "www." rest) as [rest' |]; [| apply H].
  destruct (Link.nonempty (Link.host_chars rest')) as [g' |] eqn:E.
  - intros Hg. injection Hg as <-. apply (H rest'). exact E.
  - apply H.
Qed.

Lemma search_domain_spec (s g : string) :
  Link.search_domain s = Some g -> g <> EmptyString /\ Link.slash_free g = true.
Proof.
  induction s as [| c s IH]; cbn [Link.search_domain].
  - destruct (Link.domain_at EmptyString) eqn:E; [| discriminate].
    intros H. injection H as <-. apply (domain_at_spec _ _ E).
  - destruct (Link.domain_at (String c s)) eqn:E.
    + intros H. injection H as <-. apply (domain_at_spec _ _ E).
    + exact IH.
Qed.

Lemma drop_prefix_app (p h h' x : string) :
  Link.drop_prefix p h = Some h' ->
  Link.drop_prefix p (h ++ x) = Some (h' ++ x)%string.
Proof.
  revert h. induction p as [| a p IH]; intros h H.
  - cbn in *. injection H as <-. reflexivity.
  - destruct h as [| b h]; [discriminate |]. cbn in *.
    destruct (Ascii.eqb a b); [apply IH; exact H | discriminate].
Qed.

Lemma drop_prefix_stops_at_slash (p h rest : string) :
  Link.slash_free p = true ->
  Link.drop_prefix p h = None ->
  Link.drop_prefix p (h ++ String "/" rest) = None.
Proof.
  revert h. induction p as [| a p IH]; intros h Hp H; [discriminate |].
  cbn in Hp. apply andb_true_iff in Hp as [Ha Hp].
  destruct h as [| b h]; cbn in *.
  - destruct (Ascii.eqb a "/"); [discriminate | reflexivity].
  - destruct (Ascii.eqb a b); [apply IH; assumption | reflexivity].
Qed.

Lemma drop_prefix_slash_free (p h h' : string) :
  Link.drop_prefix p h = Some h' -> Link.slash_free h = true -> Link.slash_free h' = true.
Proof.
  revert h. induction p as [| a p IH]; intros h H Hh.
  - cbn in H. injection H as <-. exact Hh.
  - destruct h as [| b h]; [discriminate |]. cbn in *.
    apply andb_true_iff in Hh as [_ Hh].
    destruct (Ascii.eqb a b); [apply (IH h); assumption | discriminate].
Qed.

Section LinkProperties.

Variable strip : string -> string.

(** X19. The link's url is the given url without its trailing run of the
    characters . , ; ) double quote and apostrophe: what was cut off
    consists of these characters only, and what is left does not end with
    one of them. *)
Theorem extract_link_trims_url (url title : string) :
  let link := Link._extract_link strip url title in
  exists tail,
    url = (Link.url link ++ tail)%string /\
    Link.all_among Link.TRAILING tail = true /\
    match Link.last_char (Link.url link) with
    | Some c => Link.among Link.TRAILING c = false
    | None => Link.url link = EmptyString
    end.
Proof. cbn zeta. unfold Link._extract_link. cbn [Link.url]. apply rstrip_spec. Qed.

(** X20. Whatever the url, the link's source is not empty and holds no
    slash: it is a host taken from the url, or the word web. *)
Theorem extract_link_source_is_host_like (url title : string) :
  let link := Link._extract_link strip url title in
  Link.source link <> EmptyString /\ Link.slash_free (Link.source link) = true.
Proof.
  cbn zeta. unfold Link._extract_link. cbn [Link.source].
  destruct (Link.search_domain (Link.rstrip Link.TRAILING url)) as [g |] eqn:E.
  - apply (search_domain_spec _ _ E).
  - split; [discriminate | reflexivity].
Qed.

(** X21. For a url made of [http://] or [https://], a host and a path
    that starts with a slash, the source is the host, without one leading
    [www.] when something follows it. *)
Theorem extract_link_source_of_url (secure : bool) (host path title : string) :
  host <> EmptyString ->
  Link.slash_free host = true ->
  Link.source
    (Link._extract_link strip
       ((if secure then "https://" else "http://") ++ host ++ String "/" path) title) =
    Link.without_www host.
Proof.
  intros Hne Hfree. unfold Link._extract_link. cbn [Link.source].
  assert (Htrim : Link.rstrip Link.TRAILING
                    ((if secure then "https://" else "http://") ++ host ++ String "/" path) =
                  ((if secure then "https://" else "http://") ++ host
                     ++ String "/" (Link.rstrip Link.TRAILING path))%string).
  { rewrite <- (string_app_assoc _ host), rstrip_keeps_front by reflexivity.
    rewrite string_app_assoc. reflexivity. }
  rewrite Htrim. clear Htrim.
  set (rest := (host ++ String "/" (Link.rstrip Link.TRAILING path))%string).
  assert (Hat : Link.domain_at ((if secure then "https://" else "http://") ++ rest) =
                Some (Link.without_www host)).
  { unfold Link.domain_at.
    assert (Hpre : match Link.drop_prefix "https://"
                           ((if secure then "https://" else "http://") ++ rest) with
                   | Some r => Some r
                   | None => Link.drop_prefix "http://"
                               ((if secure then "https://" else "http://") ++ rest)
                   end = Some rest).
    { destruct secure; reflexivity. }
    rewrite Hpre. subst rest.
    rewrite (host_chars_of_host host _ Hfree).
    unfold Link.without_www.
    destruct (Link.drop_prefix "www." host) as [h' |] eqn:Ew.
    - rewrite (drop_prefix_app _ _ _ _ Ew).
      rewrite (host_chars_of_host h' _ (drop_prefix_slash_free _ _ _ Ew Hfree)).
      destruct h' as [| c h']; cbn [Link.nonempty]; [| reflexivity].
      destruct host; [congruence | reflexivity].
    - rewrite (drop_prefix_stops_at_slash "www." host _ eq_refl Ew).
      destruct host; [congruence | reflexivity]. }
  destruct ((if secure then "https://" else "http://") ++ rest)%string eqn:Es;
    cbn [Link.search_domain]; rewrite Hat; reflexivity.
Qed.

End LinkProperties.

(** ** Agents of a session *)

Lemma after_tools_not_onboarding (calls : list (Session.Tool * bool)) (agent : Agent) :
  agent <> OnboardingAgent -> Session.after_tools agent calls <> OnboardingAgent.
Proof.
  unfold Session.after_tools. revert agent.
  induction calls as [| [tool completed] calls IH]; intros agent H; [exact H |].
  cbn [fold_left]. apply IH.
  destruct completed; [| exact H].
  destruct agent; [congruence | |]; destruct tool; cbn; discriminate.
Qed.

Section SessionProperties.

Variable VideoFrame : Type.
Variable encode : VideoFrame -> list ascii.
Variable b64encode : list ascii -> string.

(** X22. No tool leads back to the Onboarding state: once a session is in
    the Chef or the Recipe state, it is in one of the two after any sequence
    of tool calls, whether they run to their end or raise, and a user turn
    completed there goes through the three calls of the context pipeline.
    Only a tool of the agent's own class that runs to its end changes the
    agent. *)
Theorem session_never_returns_to_onboarding (agent : Agent)
    (tool_calls : list (Session.Tool * bool)) (t : Turn VideoFrame) :
  agent <> OnboardingAgent ->
  let agent' := Session.after_tools agent tool_calls in
  (agent' = ChefAgent \/ agent' = RecipeAgent) /\
  calls (on_user_turn_completed encode b64encode agent' t) =
    calls t ++ [Call_strip_old_images; Call_inject_video_frames; Call_maybe_summarize] /\
  (forall a tool completed,
     Session.after_tool a (tool, completed) <> a ->
     In tool (Session.tools a) /\ completed = true).
Proof.
  intros H. cbn zeta.
  pose proof (after_tools_not_onboarding tool_calls agent H) as H'.
  split; [| split].
  - destruct (Session.after_tools agent tool_calls); [congruence | left | right]; reflexivity.
  - destruct (Session.after_tools agent tool_calls); [congruence | |];
      unfold on_user_turn_completed, pipeline_hook, call_maybe_summarize,
        call_inject_video_frames, call_strip_old_images;
      cbn [calls]; rewrite <- !app_assoc; reflexivity.
  - intros a tool completed Hchange.
    destruct completed; [| cbn in Hchange; congruence].
    split; [| reflexivity].
    destruct a, tool; cbn in *; try congruence; auto 10.
Qed.

End SessionProperties.

(** X25. How a session starts.  With no stored profile, or an empty one,
    the first agent is the Onboarding agent.  With a stored profile that
    has keys, [entrypoint] builds the Chef agent, and this raises
    [KeyError], naming the first missing key, when one of the five answers
    is missing from the profile; only a profile with all five starts the
    session in the Chef state. *)
Theorem session_first_agent (loaded : option Profile.t) :
  match loaded with
  | None => Session.first_agent loaded = Profile.Ok OnboardingAgent
  | Some profile =>
      if Profile.truthy profile then
        match find (Profile.missing profile) Profile.REQUIRED_KEYS with
        | Some key => Session.first_agent loaded = Profile.KeyError key
        | None => Session.first_agent loaded = Profile.Ok ChefAgent
        end
      else Session.first_agent loaded = Profile.Ok OnboardingAgent
  end.
Proof.
  destruct loaded as [profile |]; [| reflexivity].
  unfold Session.first_agent.
  destruct (Profile.truthy profile); [| reflexivity].
  unfold Profile._format_profile, Profile.getitem, Profile.REQUIRED_KEYS, Profile.missing.
  cbn [find].
  destruct (PyDict.get "first_name" (Profile.answers profile)); [| reflexivity].
  destruct (PyDict.get "full_name" (Profile.answers profile)); [| reflexivity].
  destruct (PyDict.get "culinary_background" (Profile.answers profile)); [| reflexivity].
  destruct (PyDict.get "comfort_level" (Profile.answers profile)); [| reflexivity].
  destruct (PyDict.get "goals" (Profile.answers profile)); reflexivity.
Qed.

(* ================================================================== *)
(** * The further properties on sample inputs *)

Lemma history_is_never_replaced_witness :
  let w' :=
    task_resume (Returned sample_summary)
      (append_item (image_item 0) (task_begin long_world)) in
  (exists appended,
     items w' = items long_world ++ appended /\
     count_event is_LogCompacted w' = count_event is_LogCompacted long_world) /\
  (forall summary, summary_msg summary = None) /\
  exists appended,
    items (run_compaction sample_create [image_item 0] long_world) =
      items long_world ++ appended /\
    count_event is_LogCompacted (run_compaction sample_create [image_item 0] long_world) =
      count_event is_LogCompacted long_world.
Proof.
  apply (history_is_never_replaced sample_create [image_item 0] long_world
           (task_resume (Returned sample_summary)
              (append_item (image_item 0) (task_begin long_world)))).
  eapply steps_next; [apply step_begin |].
  eapply steps_next; [apply step_append |].
  eapply steps_next; [apply step_resume |].
  apply steps_refl.
Defined.

Lemma history_over_threshold_stays_over_witness :
  let w' :=
    task_resume (Returned sample_summary)
      (append_item (image_item 0) (task_begin long_world)) in
  (SUMMARIZE_THRESHOLD < Py.len (items w'))%Z /\
  (idle w' ->
   _maybe_summarize w' =
     mkWorld (items w') true false [Pending] (trace w' ++ [FlagSet; TaskCreated])).
Proof.
  apply (history_over_threshold_stays_over long_world
           (task_resume (Returned sample_summary)
              (append_item (image_item 0) (task_begin long_world)))).
  - eapply steps_next; [apply step_begin |].
    eapply steps_next; [apply step_append |].
    eapply steps_next; [apply step_resume |].
    apply steps_refl.
  - reflexivity.
Defined.

Lemma compaction_bookkeeping_invariant_witness :
  let w0 := sample_world in
  let w := task_begin (_maybe_summarize sample_world) in
  length (tasks w) <= 1 /\
  length (tasks w) = (if _summarization_in_progress w then 1 else 0) /\
  (_summarization_lock w = true <-> exists older recent, tasks w = [Awaiting older recent]) /\
  count_event is_TaskCreated w + count_event is_FlagSet w0 =
    count_event is_TaskCreated w0 + count_event is_FlagSet w /\
  count_event is_FlagSet w + count_event is_FlagCleared w0 =
    count_event is_FlagSet w0 + count_event is_FlagCleared w + length (tasks w) /\
  count_event is_LogCompacted w + count_event is_FlagCleared w0 <=
    count_event is_LogCompacted w0 + count_event is_FlagCleared w.
Proof.
  apply (compaction_bookkeeping_invariant sample_world
           (task_begin (_maybe_summarize sample_world))).
  - repeat split.
  - eapply steps_next; [apply step_trigger |].
    eapply steps_next; [apply step_begin |].
    apply steps_refl.
Defined.

Lemma sampler_drops_frames_of_ended_stream_witness :
  In (FrameEvent 7) [Poll camera_room; FrameEvent 7; Tick].
Proof.
  apply (sampler_drops_frames_of_ended_stream nat
           [Poll camera_room; FrameEvent 5; Tick] [Poll camera_room; FrameEvent 7; Tick] 7).
  left. reflexivity.
Defined.

Lemma stalled_stream_fills_buffer_with_one_frame_witness :
  snapshot (sampler_run (repeat Tick 4)
              (sampler_run [Poll camera_room; FrameEvent 5; Tick; FrameEvent 7]
                 sampler_start)) = [7; 7; 7].
Proof.
  apply (stalled_stream_fills_buffer_with_one_frame nat
           [Poll camera_room; FrameEvent 5; Tick; FrameEvent 7] "TR_cam" 7 4).
  - reflexivity.
  - reflexivity.
  - lia.
Defined.

Lemma sampler_samples_newest_frame_witness :
  let s := sampler_run [Poll camera_room] sampler_start in
  let s' := sampler_run (map FrameEvent ([1; 2] ++ [3]) ++ [Tick]) s in
  _frame_buffer s' = Py.append 3 (_frame_buffer s) /\
  _latest_frame s' = Some 3 /\
  phase s' = Streaming "TR_cam".
Proof.
  apply (sampler_samples_newest_frame nat
           (sampler_run [Poll camera_room] sampler_start) "TR_cam" [1; 2] 3).
  reflexivity.
Defined.

Lemma inject_into_empty_content_witness :
  _inject_video_frames sample_encode sample_b64encode (frames_appended [1; 2; 3])
    (mkMessage "user" (Parts [])) =
  mkMessage "user"
    (Parts (map (frame_image sample_encode sample_b64encode) [2; 3]
            ++ [frame_image sample_encode sample_b64encode 1])).
Proof.
  apply (inject_into_empty_content nat sample_encode sample_b64encode
           (frames_appended [1; 2; 3]) "user" 1 [2; 3]).
  reflexivity.
Defined.

Lemma unsized_ingredients_are_saved_then_raise_witness :
  let loads := fun _ : string => Some (Grocery.JNumber "5") in
  let entry := Grocery.mkEntry "Minestrone" (Grocery.JNumber "5") [] in
  let run := Grocery.save_to_grocery_list loads Grocery.OfChef [] "guest" "Minestrone" "5" in
  Grocery.effects run =
    [Grocery.Load "guest"; Grocery.Save "guest" ([] ++ [entry]);
     Grocery.Publish "grocery_list_update" ([] ++ [entry])] /\
  Grocery.reply run = Grocery.TypeError /\
  Grocery.reply (Grocery.show_grocery_list ([] ++ entry :: []) "guest") = Grocery.TypeError.
Proof.
  apply (unsized_ingredients_are_saved_then_raise
           (fun _ : string => Some (Grocery.JNumber "5")) Grocery.OfChef [] [] []
           "guest" "Minestrone" "5" (Grocery.JNumber "5")).
  - reflexivity.
  - reflexivity.
Defined.

Lemma sized_ingredients_are_appended_and_counted_witness :
  let parsed := Grocery.JList [Grocery.JString "onions"; Grocery.JString "beans"] in
  let loads := fun _ : string => Some parsed in
  let stored := [Grocery.mkEntry "Focaccia" (Grocery.JList [Grocery.JString "flour"]) []] in
  let entry := Grocery.mkEntry "Minestrone" parsed [] in
  let run :=
    Grocery.save_to_grocery_list loads Grocery.OfRecipe stored "guest" "Minestrone"
      "[onions, beans]" in
  Grocery.saved_items (Grocery.effects run) = Some (stored ++ [entry]) /\
  Grocery.reply run =
    Grocery.Said ("Saved " ++ Grocery.str_of_nat 2 ++ " ingredients from " ++ "Minestrone"
                  ++ " to the grocery list.")%string /\
  Grocery.reply (Grocery.show_grocery_list (stored ++ [entry]) "guest") =
    Grocery.Said ("Grocery list is now on screen with " ++ Grocery.str_of_nat (1 + 2)
                  ++ " items across " ++ Grocery.str_of_nat (length stored + 1)
                  ++ " recipe(s).")%string.
Proof.
  apply (sized_ingredients_are_appended_and_counted
           (fun _ : string =>
              Some (Grocery.JList [Grocery.JString "onions"; Grocery.JString "beans"]))
           Grocery.OfRecipe
           [Grocery.mkEntry "Focaccia" (Grocery.JList [Grocery.JString "flour"]) []]
           "guest" "Minestrone" "[onions, beans]"
           (Grocery.JList [Grocery.JString "onions"; Grocery.JString "beans"]) 2 1).
  - reflexivity.
  - reflexivity.
  - reflexivity.
Defined.

Lemma extract_link_source_of_url_witness :
  Link.source
    (Link._extract_link (fun s => s)
       ((if true then "https://" else "http://") ++ "www.seriouseats.com"
          ++ String "/" "minestrone).") "Minestrone") =
    Link.without_www "www.seriouseats.com".
Proof.
  apply (extract_link_source_of_url (fun s => s) true "www.seriouseats.com"
           "minestrone)." "Minestrone").
  - discriminate.
  - reflexivity.
Defined.

Lemma session_never_returns_to_onboarding_witness :
  let agent' :=
    Session.after_tools ChefAgent
      [(Session.start_recipe, true); (Session.finish_recipe, false);
       (Session.finish_recipe, true)] in
  (agent' = ChefAgent \/ agent' = RecipeAgent) /\
  calls (on_user_turn_completed sample_encode sample_b64encode agent' sample_turn) =
    calls sample_turn
      ++ [Call_strip_old_images; Call_inject_video_frames; Call_maybe_summarize] /\
  (forall a tool completed,
     Session.after_tool a (tool, completed) <> a ->
     In tool (Session.tools a) /\ completed = true).
Proof.
  apply (session_never_returns_to_onboarding nat sample_encode sample_b64encode
           ChefAgent
           [(Session.start_recipe, true); (Session.finish_recipe, false);
            (Session.finish_recipe, true)]
           sample_turn).
  discriminate.
Defined.

(* ================================================================== *)
(** * Across components *)

(** X23. When the model is called and answers with an empty text, the task
    treats it as no summary: it changes nothing in the history, which is
    left as the foreground has it, logs neither a compaction nor an error,
    and ends with nothing in flight. *)
Theorem empty_summary_changes_nothing (create : string -> Outcome)
    (during : list ChatItem) (w : World) (request : string) :
  _summarization_lock w = false ->
  tasks w = [Pending] ->
  (SUMMARIZE_THRESHOLD < Py.len (items w))%Z ->
  summary_request (Py.slice_to (Py.len (items w) - KEEP_RECENT_ITEMS) (items w)) =
    Some request ->
  create request = Returned "" ->
  let w' := run_compaction create during w in
  items w' = items w ++ during /\
  trace w' = trace w ++ [FlagCleared] /\
  idle w'.
Proof.
  intros Hl Ht Hover Hreq Hempty. cbn zeta.
  destruct (split_over_threshold _ Hover) as (E & _ & _). rewrite E in Hreq.
  rewrite (run_compaction_request create during w request) by assumption.
  rewrite Hempty. cbn. repeat split.
Qed.

Lemma empty_summary_changes_nothing_witness :
  let w' := run_compaction (fun _ => Returned "") [image_item 0] long_world in
  items w' = items long_world ++ [image_item 0] /\
  trace w' = trace long_world ++ [FlagCleared] /\
  idle w'.
Proof.
  destruct (summary_request
              (Py.slice_to (Py.len (items long_world) - KEEP_RECENT_ITEMS)
                 (items long_world))) as [request |] eqn:E; [| discriminate].
  apply (empty_summary_changes_nothing (fun _ => Returned "") [image_item 0]
           long_world request).
  - reflexivity.
  - reflexivity.
  - reflexivity.
  - exact E.
  - reflexivity.
Defined.

Section SamplerToMessage.

Variable VideoFrame : Type.
Variable encode : VideoFrame -> list ascii.
Variable b64encode : list ascii -> string.

(** A stream that delivers one frame before every tick. *)
Lemma sampler_run_frame_per_tick (frames : list VideoFrame) (s : Sampler VideoFrame)
    (t : Track) :
  phase s = Streaming t ->
  let s' := sampler_run (flat_map (fun f => [FrameEvent f; Tick]) frames) s in
  phase s' = Streaming t /\
  _frame_buffer s' = fold_left (fun d f => Py.append f d) frames (_frame_buffer s).
Proof.
  revert s. induction frames as [| f frames IH]; intros s Hp; cbn zeta.
  - split; [exact Hp | reflexivity].
  - assert (E : fst (sampler_step Tick (fst (sampler_step (FrameEvent f) s))) =
                mkSampler (Py.append f (_frame_buffer s)) (Some f) (Streaming t)).
    { unfold sampler_step. rewrite Hp. reflexivity. }
    unfold sampler_run. cbn [flat_map app fold_left]. rewrite E.
    apply (IH (mkSampler (Py.append f (_frame_buffer s)) (Some f) (Streaming t))).
    reflexivity.
Qed.

(** X24. From the sampler to the message: when a camera track is found and
    the stream delivers one frame before each sampling tick, a user turn
    completed afterwards gets the images of the last three frames
    delivered, oldest first, in front of its text. *)
Theorem sampled_frames_reach_message (room : Room) (t : Track)
    (frames : list VideoFrame) (r text : string) :
  find_video_track room = Some t ->
  let s :=
    sampler_run (Poll room :: flat_map (fun f => [FrameEvent f; Tick]) frames)
      sampler_start in
  snapshot s = skipn (length frames - 3) frames /\
  _inject_video_frames encode b64encode (_frame_buffer s)
    (mkMessage r (Parts [Text text])) =
    mkMessage r
      (Parts (map (frame_image encode b64encode) (skipn (length frames - 3) frames)
              ++ [Text text])).
Proof.
  intros Hroom. cbn zeta.
  assert (Hs : sampler_run (Poll room :: flat_map (fun f => [FrameEvent f; Tick]) frames)
                 sampler_start =
               sampler_run (flat_map (fun f => [FrameEvent f; Tick]) frames)
                 (mkSampler (Py.deque_new FRAME_BUFFER_MAXLEN) None (Streaming t))).
  { unfold sampler_run. cbn [fold_left]. f_equal.
    unfold sampler_step. cbn [phase sampler_start]. rewrite Hroom. reflexivity. }
  rewrite Hs. clear Hs.
  destruct (sampler_run_frame_per_tick frames
              (mkSampler (Py.deque_new FRAME_BUFFER_MAXLEN) None (Streaming t)) t eq_refl)
    as [_ Hb].
  cbn zeta in Hb. cbn [_frame_buffer] in Hb.
  destruct (fed_deque_elems FRAME_BUFFER_MAXLEN frames) as [_ He]. cbn zeta in He.
  set (s1 := sampler_run (flat_map (fun f => [FrameEvent f; Tick]) frames)
               (mkSampler (Py.deque_new FRAME_BUFFER_MAXLEN) None (Streaming t))) in *.
  assert (Hsnap : Py.to_list (_frame_buffer s1) = skipn (length frames - 3) frames).
  { unfold Py.to_list. rewrite Hb. exact He. }
  split; [exact Hsnap |].
  change [Text text] with ([] ++ [Text text]).
  rewrite inject_parts, Hsnap. reflexivity.
Qed.

End SamplerToMessage.

Lemma sampled_frames_reach_message_witness :
  let s :=
    sampler_run (Poll camera_room :: flat_map (fun f => [FrameEvent f; Tick]) [1; 2; 3; 4; 5])
      sampler_start in
  snapshot s = skipn (length [1; 2; 3; 4; 5] - 3) [1; 2; 3; 4; 5] /\
  _inject_video_frames sample_encode sample_b64encode (_frame_buffer s)
    (mkMessage "user" (Parts [Text "does this look done?"])) =
    mkMessage "user"
      (Parts (map (frame_image sample_encode sample_b64encode)
                (skipn (length [1; 2; 3; 4; 5] - 3) [1; 2; 3; 4; 5])
              ++ [Text "does this look done?"])).
Proof.
  apply (sampled_frames_reach_message nat sample_encode sample_b64encode
           camera_room "TR_cam" [1; 2; 3; 4; 5] "user" "does this look done?").
  reflexivity.
Defined.
